(** * Task tracker: a shallow embedding of [app/main.py] and [app/schemas.py]

    The service is a set of FastAPI route handlers over a relational store
    reached through an ORM session.  The handlers are embedded as programs of
    a state-and-exception monad over the session; the request schemas are
    records, one per pydantic model, together with the boundary validation
    that builds them from a JSON body.  The modules [app/models.py],
    [app/auth.py] and [app/database.py] are imported by [main.py] but are not
    part of the sources at hand: the rows follow the persisted schema of the
    specification, and the password hasher and the token codec are
    parameters of the development. *)

From Stdlib Require Import ZArith List Ascii String Bool Lia.
Import ListNotations.

Local Open Scope string_scope.
Local Open Scope Z_scope.

#[local] Set Default Proof Using "Type".

(** ** Exceptions and results *)

(** What a request can end with instead of a response.  [HTTPException] is
    FastAPI's exception, raised by the handlers with a status code and a
    detail string; [RequestValidationError] is what the boundary raises when
    a body does not fit its schema (answered with status 422);
    [IntegrityError] and [InvalidRequestError] are the ORM's complaints about
    a violated constraint and about refreshing a row that is gone (both
    answered with status 500). *)
Inductive exn : Type :=
| HTTPException (status_code : Z) (detail : string)
| RequestValidationError
| IntegrityError
| InvalidRequestError.

Inductive result (A : Type) : Type :=
| Ok (a : A)
| Raise (e : exn).
Arguments Ok {A} a.
Arguments Raise {A} e.

(** The HTTP status the framework answers with. *)
Definition status_of {A : Type} (r : result A) : Z :=
  match r with
  | Ok _ => 200
  | Raise (HTTPException c _) => c
  | Raise RequestValidationError => 422
  | Raise IntegrityError => 500
  | Raise InvalidRequestError => 500
  end.

Definition is_ok {A : Type} (r : result A) : bool :=
  match r with Ok _ => true | Raise _ => false end.

(** ** Request bodies *)

(** The scalar JSON values a field of a request body can carry. *)
Inductive json : Type :=
| JNull
| JBool (b : bool)
| JInt (n : Z)
| JStr (s : string).

(** A parsed JSON object: the fields the client sent, by name. *)
Definition body : Type := list (string * json).

Definition field (k : string) (b : body) : option json :=
  option_map snd (find (fun kv => String.eqb (fst kv) k) b).

(** pydantic's validation of one field.  A [str] field takes a JSON string
    and nothing else; a field typed [T | None = None] takes [None] both when
    the key is absent and when it carries an explicit null.  Validation
    answers [None] when the field is rejected. *)
Definition validate_str (v : option json) : option string :=
  match v with
  | Some (JStr s) => Some s
  | _ => None
  end.

Definition validate_opt {A : Type} (validate : option json -> option A)
    (v : option json) : option (option A) :=
  match v with
  | None => Some None
  | Some JNull => Some None
  | Some _ => option_map Some (validate v)
  end.

(** ** [app/schemas.py] *)

Module UserCreate.
Record t : Type := mk { username : string; password : string }.
End UserCreate.

Module Token.
Record t : Type := mk { access_token : string; token_type : string }.
End Token.

Module TodoCreate.
Record t : Type := mk { title : string; description : option string }.
End TodoCreate.

Module TodoUpdate.
Record t : Type := mk {
  title : option string;
  description : option string;
  completed : option bool
}.
End TodoUpdate.

Module TodoResponse.
Record t : Type := mk {
  id : Z;
  title : string;
  description : option string;
  completed : bool
}.
End TodoResponse.

(** The form of [OAuth2PasswordRequestForm], as far as [login] reads it. *)
Module LoginForm.
Record t : Type := mk { username : string; password : string }.
End LoginForm.

(** ** The persisted rows *)

(** Modelled from the spec: [app/models.py] is not among the sources.  The
    rows follow the persisted schema: Users(id PK, username UNIQUE,
    hashed_password) and Tasks(id PK, title, description NULLABLE,
    completed BOOL, owner_id FK to Users.id). *)
Module User.
Record t : Type := mk { id : Z; username : string; hashed_password : string }.
End User.

Module Todo.
Record t : Type := mk {
  id : Z;
  title : string;
  description : option string;
  completed : bool;
  owner_id : Z
}.

Definition set_title (s : string) (r : t) : t :=
  mk (id r) s (description r) (completed r) (owner_id r).
Definition set_description (d : string) (r : t) : t :=
  mk (id r) (title r) (Some d) (completed r) (owner_id r).
Definition set_completed (c : bool) (r : t) : t :=
  mk (id r) (title r) (description r) c (owner_id r).
End Todo.

(** [response_model=schemas.TodoResponse]: the row is read attribute by
    attribute ([from_attributes]); the owner is not part of the response. *)
Definition to_response (r : Todo.t) : TodoResponse.t :=
  TodoResponse.mk (Todo.id r) (Todo.title r) (Todo.description r) (Todo.completed r).

(** ** The store and the ORM session *)

Record Database : Type := mkDatabase {
  users : list User.t;
  todos : list Todo.t
}.

Definition empty_db : Database := mkDatabase [] [].

(** Modelled from the spec: [app/database.py] is not among the sources.
    The storage engine gives a new row a numeric key that no row of the
    table carries: one more than the largest key in use. *)
Definition next_id (keys : list Z) : Z :=
  1 + fold_right Z.max 0 keys.
Arguments next_id : simpl never.

(** A session sees its own uncommitted work ([working]); what other requests
    and later requests see is [committed]. *)
Record Session : Type := mkSession {
  committed : Database;
  working : Database
}.

Definition M (A : Type) : Type := Session -> result A * Session.

Definition ret {A : Type} (a : A) : M A := fun s => (Ok a, s).

Definition raise {A : Type} (e : exn) : M A := fun s => (Raise e, s).

Definition bind {A B : Type} (m : M A) (k : A -> M B) : M B :=
  fun s =>
    match m s with
    | (Ok a, s') => k a s'
    | (Raise e, s') => (Raise e, s')
    end.

Declare Scope db_scope.
Delimit Scope db_scope with db.
Notation "x <- m ;; k" := (bind m (fun x => k))
  (at level 100, m at next level, right associativity) : db_scope.
Notation "m ;; k" := (bind m (fun _ => k))
  (at level 100, right associativity) : db_scope.
Local Open Scope db_scope.

(** [db.query(models.User).filter(p).first()] *)
Definition query_user_first (p : User.t -> bool) : M (option User.t) :=
  fun s => (Ok (find p (users (working s))), s).

(** [db.query(models.Todo).filter(p).first()] *)
Definition query_todo_first (p : Todo.t -> bool) : M (option Todo.t) :=
  fun s => (Ok (find p (todos (working s))), s).

(** [db.query(models.Todo).filter(p).all()] *)
Definition query_todo_all (p : Todo.t -> bool) : M (list Todo.t) :=
  fun s => (Ok (filter p (todos (working s))), s).

(** [db.add(models.User(username=..., hashed_password=...))]: the row is
    inserted with a key of the engine's choosing, which is handed back; the
    UNIQUE constraint on the username refuses a second row of that name. *)
Definition add_user (username hashed_password : string) : M Z :=
  fun s =>
    let w := working s in
    if existsb (fun u => String.eqb (User.username u) username) (users w)
    then (Raise IntegrityError, s)
    else
      let k := next_id (map User.id (users w)) in
      (Ok k,
       mkSession (committed s)
         (mkDatabase (users w ++ [User.mk k username hashed_password]) (todos w))).

(** [db.add(models.Todo(title=..., description=..., owner_id=...))]: the
    [completed] column is not given and takes its default, false. *)
Definition add_todo (title : string) (description : option string)
    (owner_id : Z) : M Z :=
  fun s =>
    let w := working s in
    let k := next_id (map Todo.id (todos w)) in
    (Ok k,
     mkSession (committed s)
       (mkDatabase (users w)
          (todos w ++ [Todo.mk k title description false owner_id]))).

(** The changed attributes of an ORM object reach its row when the session
    is flushed: UPDATE ... WHERE id = the object's key. *)
Definition flush_todo (db_todo : Todo.t) : M unit :=
  fun s =>
    let w := working s in
    (Ok tt,
     mkSession (committed s)
       (mkDatabase (users w)
          (map (fun r => if Todo.id r =? Todo.id db_todo then db_todo else r)
             (todos w)))).

(** [db.delete(db_todo)]: DELETE ... WHERE id = its key. *)
Definition delete (db_todo : Todo.t) : M unit :=
  fun s =>
    let w := working s in
    (Ok tt,
     mkSession (committed s)
       (mkDatabase (users w)
          (filter (fun r => negb (Todo.id r =? Todo.id db_todo)) (todos w)))).

(** [db.commit()] *)
Definition commit : M unit :=
  fun s => (Ok tt, mkSession (working s) (working s)).

(** [db.refresh(obj)]: the row is read again by its key. *)
Definition refresh (key : Z) : M Todo.t :=
  fun s =>
    match find (fun r => Todo.id r =? key) (todos (working s)) with
    | Some r => (Ok r, s)
    | None => (Raise InvalidRequestError, s)
    end.

(** [get_db]: a request runs in a session of its own, opened on the
    committed store and closed on every exit path; work that was not
    committed is gone with the session. *)
Definition get_db {A : Type} (handler : M A) (db : Database) : result A * Database :=
  let '(r, s) := handler (mkSession db db) in (r, committed s).

(** ** Boundary validation of the request bodies *)

Definition parse_UserCreate (b : body) : option UserCreate.t :=
  match validate_str (field "username" b), validate_str (field "password" b) with
  | Some u, Some p => Some (UserCreate.mk u p)
  | _, _ => None
  end.

Definition parse_TodoCreate (b : body) : option TodoCreate.t :=
  match validate_str (field "title" b),
        validate_opt validate_str (field "description" b) with
  | Some t, Some d => Some (TodoCreate.mk t d)
  | _, _ => None
  end.

(** The response of [register] and of [delete_todo]: a one-key object. *)
Module Message.
Record t : Type := mk { message : string }.
End Message.

(** The claims a bearer token carries. *)
Module Claims.
Record t : Type := mk { sub : string; exp : Z }.
End Claims.

Section App.

(** *** What [app/auth.py] and the framework bring in *)

(** The password hasher: [hash_password] draws a salt, which is made an
    argument here; [verify_password plain hashed] checks a plaintext
    against a stored hash. *)
Variable hash_password : string -> string -> string.
Variable verify_password : string -> string -> bool.

(** The token codec under the process-wide secret: [jwt_encode] signs and
    serialises a claim set, [jwt_decode] answers [None] on a malformed
    token or a signature that does not check. *)
Variable jwt_encode : Claims.t -> string.
Variable jwt_decode : string -> option Claims.t.

(** The configured lifetime of a token. *)
Variable ACCESS_TOKEN_EXPIRE : Z.

(** pydantic's lax reading of a non-boolean scalar as a [bool]. *)
Variable lax_bool : json -> option bool.

Definition validate_bool (v : option json) : option bool :=
  match v with
  | Some (JBool b) => Some b
  | Some j => lax_bool j
  | None => None
  end.

Definition parse_TodoUpdate (b : body) : option TodoUpdate.t :=
  match validate_opt validate_str (field "title" b),
        validate_opt validate_str (field "description" b),
        validate_opt validate_bool (field "completed" b) with
  | Some t, Some d, Some c => Some (TodoUpdate.mk t d c)
  | _, _, _ => None
  end.

(** Modelled from the spec: [auth.create_access_token] is not among the
    sources.  [issue(subject)] produces a signed token embedding the
    subject and an absolute expiry, a fixed lifetime after the moment of
    issue. *)
Definition create_access_token (now : Z) (sub : string) : string :=
  jwt_encode (Claims.mk sub (now + ACCESS_TOKEN_EXPIRE)).

(** Modelled from the spec: [auth.decode_token] is not among the sources.
    [verify(token)] fails if the signature is invalid, the token is
    malformed, or the expiry timestamp has passed; otherwise it gives the
    subject.  It consults no store. *)
Definition decode_token (now : Z) (token : string) : result string :=
  match jwt_decode token with
  | None => Raise (HTTPException 401 "Invalid token")
  | Some c =>
      if Claims.exp c <? now
      then Raise (HTTPException 401 "Invalid token")
      else Ok (Claims.sub c)
  end.

Definition lift {A : Type} (r : result A) : M A := fun s => (r, s).

(** *** [app/main.py] *)

Definition get_current_user (now : Z) (token : string) : M User.t :=
  username <- lift (decode_token now token) ;;
  user <- query_user_first (fun u => String.eqb (User.username u) username) ;;
  match user with
  | None => raise (HTTPException 401 "User not found")
  | Some user => ret user
  end.

Definition register (salt : string) (user : UserCreate.t) : M Message.t :=
  existing <- query_user_first
    (fun u => String.eqb (User.username u) (UserCreate.username user)) ;;
  match existing with
  | Some _ => raise (HTTPException 400 "Username already exists")
  | None =>
      _ <- add_user (UserCreate.username user)
             (hash_password salt (UserCreate.password user)) ;;
      commit ;;
      ret (Message.mk "User created")
  end.

Definition login (now : Z) (form_data : LoginForm.t) : M Token.t :=
  user <- query_user_first
    (fun u => String.eqb (User.username u) (LoginForm.username form_data)) ;;
  match user with
  | None => raise (HTTPException 401 "Invalid credentials")
  | Some user =>
      if negb (verify_password (LoginForm.password form_data)
                 (User.hashed_password user))
      then raise (HTTPException 401 "Invalid credentials")
      else
        let token := create_access_token now (User.username user) in
        ret (Token.mk token "bearer")
  end.

Definition create_todo (todo : TodoCreate.t) (current_user : User.t) : M Todo.t :=
  new_todo <- add_todo (TodoCreate.title todo) (TodoCreate.description todo)
                (User.id current_user) ;;
  commit ;;
  refresh new_todo.

Definition get_todos (current_user : User.t) : M (list Todo.t) :=
  query_todo_all (fun t => Todo.owner_id t =? User.id current_user).

(** The three guarded assignments of [update_todo]. *)
Definition apply_update (todo : TodoUpdate.t) (db_todo : Todo.t) : Todo.t :=
  let db_todo :=
    match TodoUpdate.title todo with
    | Some title => Todo.set_title title db_todo
    | None => db_todo
    end in
  let db_todo :=
    match TodoUpdate.description todo with
    | Some description => Todo.set_description description db_todo
    | None => db_todo
    end in
  match TodoUpdate.completed todo with
  | Some completed => Todo.set_completed completed db_todo
  | None => db_todo
  end.

Definition update_todo (todo_id : Z) (todo : TodoUpdate.t)
    (current_user : User.t) : M Todo.t :=
  db_todo <- query_todo_first
    (fun t => (Todo.id t =? todo_id) && (Todo.owner_id t =? User.id current_user)) ;;
  match db_todo with
  | None => raise (HTTPException 404 "Todo not found")
  | Some db_todo =>
      flush_todo (apply_update todo db_todo) ;;
      commit ;;
      refresh (Todo.id db_todo)
  end.

Definition delete_todo (todo_id : Z) (current_user : User.t) : M Message.t :=
  db_todo <- query_todo_first
    (fun t => (Todo.id t =? todo_id) && (Todo.owner_id t =? User.id current_user)) ;;
  match db_todo with
  | None => raise (HTTPException 404 "Todo not found")
  | Some db_todo =>
      delete db_todo ;;
      commit ;;
      ret (Message.mk "Todo deleted")
  end.

(** *** The routes: dependencies first, then the body, then the handler *)

Definition validated {A : Type} (v : option A) : M A :=
  match v with
  | Some a => ret a
  | None => raise RequestValidationError
  end.

Definition post_register (salt : string) (b : body) (db : Database)
    : result Message.t * Database :=
  get_db (user <- validated (parse_UserCreate b) ;; register salt user) db.

Definition post_login (now : Z) (form_data : LoginForm.t) (db : Database)
    : result Token.t * Database :=
  get_db (login now form_data) db.

Definition post_todos (now : Z) (token : string) (b : body) (db : Database)
    : result TodoResponse.t * Database :=
  get_db (current_user <- get_current_user now token ;;
          todo <- validated (parse_TodoCreate b) ;;
          new_todo <- create_todo todo current_user ;;
          ret (to_response new_todo)) db.

Definition get_todos_route (now : Z) (token : string) (db : Database)
    : result (list TodoResponse.t) * Database :=
  get_db (current_user <- get_current_user now token ;;
          rows <- get_todos current_user ;;
          ret (map to_response rows)) db.

Definition put_todos (now : Z) (token : string) (todo_id : Z) (b : body)
    (db : Database) : result TodoResponse.t * Database :=
  get_db (current_user <- get_current_user now token ;;
          todo <- validated (parse_TodoUpdate b) ;;
          db_todo <- update_todo todo_id todo current_user ;;
          ret (to_response db_todo)) db.

Definition delete_todos (now : Z) (token : string) (todo_id : Z)
    (db : Database) : result Message.t * Database :=
  get_db (current_user <- get_current_user now token ;;
          delete_todo todo_id current_user) db.

End App.

(** ** The constraints of the schema *)

(** Primary keys are unique in both tables and usernames are unique. *)
Definition db_wf (db : Database) : Prop :=
  NoDup (map User.id (users db)) /\
  NoDup (map User.username (users db)) /\
  NoDup (map Todo.id (todos db)).

(** The lookup shared by [update_todo] and [delete_todo]. *)
Definition owned_by (todo_id : Z) (current_user : User.t) (t : Todo.t) : bool :=
  (Todo.id t =? todo_id) && (Todo.owner_id t =? User.id current_user).

(** The row [create_todo] inserts. *)
Definition new_row (todo : TodoCreate.t) (current_user : User.t)
    (db : Database) : Todo.t :=
  Todo.mk (next_id (map Todo.id (todos db)))
    (TodoCreate.title todo) (TodoCreate.description todo) false
    (User.id current_user).

(** The row [register] inserts, given the stored hash. *)
Definition new_user (username hashed_password : string) (db : Database) : User.t :=
  User.mk (next_id (map User.id (users db))) username hashed_password.

(** The outcome of [get_current_user] on a store. *)
Definition authenticate (jwt_decode : string -> option Claims.t)
    (now : Z) (token : string) (db : Database) : result User.t :=
  fst (get_db (get_current_user jwt_decode now token) db).

(** A body with one key taken out. *)
Definition without (k : string) (b : body) : body :=
  filter (fun kv => negb (String.eqb (fst kv) k)) b.

(** ** A toy instance of the parameters, for concrete runs *)

Definition demo_hash (salt plain : string) : string := "h(" ++ plain ++ ")".

Definition demo_verify (plain hashed : string) : bool :=
  String.eqb hashed (demo_hash "" plain).

Definition demo_encode (c : Claims.t) : string :=
  if Claims.exp c <? 1000 then "old." ++ Claims.sub c else "v1." ++ Claims.sub c.

Definition demo_decode (token : string) : option Claims.t :=
  match token with
  | String "v"%char (String "1"%char (String "."%char sub)) =>
      Some (Claims.mk sub 2000)
  | String "o"%char (String "l"%char (String "d"%char (String "."%char sub))) =>
      Some (Claims.mk sub 10)
  | _ => None
  end.

Definition demo_lax_bool (j : json) : option bool :=
  match j with
  | JInt 0 => Some false
  | JInt 1 => Some true
  | _ => None
  end.

Definition alice : User.t := User.mk 1 "alice" (demo_hash "" "pw1").
Definition bob : User.t := User.mk 2 "bob" (demo_hash "" "pw2").

Definition demo_db : Database :=
  mkDatabase [alice; bob]
    [Todo.mk 1 "Buy milk" None false 1; Todo.mk 2 "Write report" (Some "draft") false 2].

(** ** The service as a transition system *)

Definition map_result {A B : Type} (f : A -> B) (r : result A) : result B :=
  match r with
  | Ok a => Ok (f a)
  | Raise e => Raise e
  end.

(** The requests the API takes; [now] is the clock at the time of the
    request and [salt] the salt the hasher draws. *)
Inductive request : Type :=
| PostRegister (salt : string) (b : body)
| PostLogin (now : Z) (form_data : LoginForm.t)
| PostTodos (now : Z) (token : string) (b : body)
| GetTodos (now : Z) (token : string)
| PutTodos (now : Z) (token : string) (todo_id : Z) (b : body)
| DeleteTodos (now : Z) (token : string) (todo_id : Z).

Section Service.

Variable hash_password : string -> string -> string.
Variable verify_password : string -> string -> bool.
Variable jwt_encode : Claims.t -> string.
Variable jwt_decode : string -> option Claims.t.
Variable ACCESS_TOKEN_EXPIRE : Z.
Variable lax_bool : json -> option bool.

(** The store a request leaves behind. *)
Definition serve (req : request) (db : Database) : Database :=
  match req with
  | PostRegister salt b => snd (post_register hash_password salt b db)
  | PostLogin now form_data =>
      snd (post_login verify_password jwt_encode ACCESS_TOKEN_EXPIRE now form_data db)
  | PostTodos now token b => snd (post_todos jwt_decode now token b db)
  | GetTodos now token => snd (get_todos_route jwt_decode now token db)
  | PutTodos now token todo_id b =>
      snd (put_todos jwt_decode lax_bool now token todo_id b db)
  | DeleteTodos now token todo_id =>
      snd (delete_todos jwt_decode now token todo_id db)
  end.

(** The stores the service can be in, starting from empty tables. *)
Inductive reachable : Database -> Prop :=
| reachable_empty : reachable empty_db
| reachable_serve (req : request) (db : Database) :
    reachable db -> reachable (serve req db).

End Service.

(** Every task is owned by a user of the store (the foreign key of the
    tasks table). *)
Definition db_fk (db : Database) : Prop :=
  forall t, In t (todos db) ->
            exists u, In u (users db) /\ User.id u = Todo.owner_id t.

(** What [update_todo] writes over the rows. *)
Definition replaced (obj : Todo.t) (rows : list Todo.t) : list Todo.t :=
  map (fun r => if Todo.id r =? Todo.id obj then obj else r) rows.

(** ** Lists and keys *)

Lemma next_id_above (keys : list Z) (k : Z) : In k keys -> k < next_id keys.
Proof.
  unfold next_id. induction keys as [|x keys IH]; [intros []|].
  change (fold_right Z.max 0 (x :: keys)) with (Z.max x (fold_right Z.max 0 keys)).
  intros [->|H]; [lia|]. specialize (IH H). lia.
Qed.

Lemma next_id_fresh (keys : list Z) : ~ In (next_id keys) keys.
Proof. intros H. apply next_id_above in H. lia. Qed.

Lemma find_none_existsb {A : Type} (p : A -> bool) (l : list A) :
  find p l = None -> existsb p l = false.
Proof.
  induction l as [|x l IH]; simpl; [reflexivity|].
  destruct (p x); [discriminate|]. exact IH.
Qed.

Lemma find_none_iff {A : Type} (p : A -> bool) (l : list A) :
  find p l = None <-> (forall x, In x l -> p x = false).
Proof.
  split.
  - intros H x Hx. exact (find_none p l H x Hx).
  - induction l as [|x l IH]; simpl; [reflexivity|]. intros H.
    rewrite (H x (or_introl eq_refl)). apply IH. intros y Hy. apply H. now right.
Qed.

Lemma unique_key_inj {R K : Type} (key : R -> K) (rows : list R) (a b : R) :
  NoDup (map key rows) -> In a rows -> In b rows -> key a = key b -> a = b.
Proof.
  induction rows as [|x rows IH]; simpl; [tauto|].
  intros Hnd Ha Hb Hk. inversion Hnd as [|? ? Hx Hl]; subst.
  destruct Ha as [->|Ha], Hb as [->|Hb]; trivial.
  - exfalso. apply Hx. rewrite Hk. now apply in_map.
  - exfalso. apply Hx. rewrite <- Hk. now apply in_map.
  - now apply IH.
Qed.

(** Under a unique key, a lookup that implies the key finds the row. *)
Lemma find_unique {A : Type} (key : A -> Z) (p : A -> bool) (l : list A) (a : A) :
  NoDup (map key l) -> In a l -> p a = true ->
  (forall x, p x = true -> key x = key a) ->
  find p l = Some a.
Proof.
  intros Hnd Ha Hp Hkey.
  destruct (find p l) as [x|] eqn:E.
  - apply find_some in E as [Hx Hpx].
    f_equal. apply (unique_key_inj key l); auto.
  - rewrite (find_none p l E a Ha) in Hp. discriminate.
Qed.

Lemma find_append {A : Type} (p : A -> bool) (l1 l2 : list A) :
  find p (l1 ++ l2) =
  match find p l1 with
  | Some x => Some x
  | None => find p l2
  end.
Proof.
  induction l1 as [|x l1 IH]; simpl; [reflexivity|].
  destruct (p x); [reflexivity|exact IH].
Qed.

Lemma find_app_fresh {A : Type} (p : A -> bool) (l : list A) (a : A) :
  (forall x, In x l -> p x = false) -> p a = true -> find p (l ++ [a]) = Some a.
Proof.
  intros Hl Ha. induction l as [|x l IH]; simpl.
  - now rewrite Ha.
  - rewrite (Hl x (or_introl eq_refl)). apply IH. intros y Hy. apply Hl. now right.
Qed.

Lemma find_replaced (l : list Todo.t) (t obj : Todo.t) :
  In t l -> Todo.id obj = Todo.id t ->
  find (fun r => Todo.id r =? Todo.id t)
    (map (fun r => if Todo.id r =? Todo.id obj then obj else r) l) = Some obj.
Proof.
  intros Hin Hid. rewrite Hid. induction l as [|x l IH]; simpl in *; [tauto|].
  destruct (Todo.id x =? Todo.id t) eqn:E.
  - now rewrite Hid, Z.eqb_refl.
  - rewrite E. destruct Hin as [->|Hin]; [rewrite Z.eqb_refl in E; discriminate|].
    now apply IH.
Qed.

Lemma field_without_same (k : string) (b : body) : field k (without k b) = None.
Proof.
  unfold field, without. induction b as [|[k' v] b IH]; simpl; [reflexivity|].
  destruct (String.eqb k' k) eqn:E; simpl; [exact IH|]. now rewrite E.
Qed.

Lemma field_without_other (k k' : string) (b : body) :
  k' <> k -> field k' (without k b) = field k' b.
Proof.
  intros Hne. unfold field, without.
  induction b as [|[k0 v] b IH]; simpl; [reflexivity|].
  destruct (String.eqb k0 k) eqn:E; simpl.
  - apply String.eqb_eq in E. subst k0.
    destruct (String.eqb k k') eqn:E'.
    + apply String.eqb_eq in E'. congruence.
    + exact IH.
  - destruct (String.eqb k0 k'); [reflexivity|exact IH].
Qed.

(** ** What each handler computes on a store *)

Section Runs.

Variable hash_password : string -> string -> string.
Variable verify_password : string -> string -> bool.
Variable jwt_encode : Claims.t -> string.
Variable jwt_decode : string -> option Claims.t.
Variable ACCESS_TOKEN_EXPIRE : Z.
Variable lax_bool : json -> option bool.

Lemma get_current_user_run (now : Z) (token : string) (s : Session) :
  get_current_user jwt_decode now token s =
  (match decode_token jwt_decode now token with
   | Raise e => Raise e
   | Ok username =>
       match find (fun u => String.eqb (User.username u) username)
               (users (working s)) with
       | None => Raise (HTTPException 401 "User not found")
       | Some user => Ok user
       end
   end, s).
Proof.
  unfold get_current_user, bind, lift, query_user_first.
  destruct (decode_token jwt_decode now token) as [name|e]; [|reflexivity].
  destruct (find _ _); reflexivity.
Qed.

Lemma get_current_user_session (now : Z) (token : string) (db : Database) :
  get_current_user jwt_decode now token (mkSession db db) =
  (authenticate jwt_decode now token db, mkSession db db).
Proof.
  unfold authenticate, get_db. rewrite get_current_user_run. reflexivity.
Qed.

Lemma register_run (salt : string) (user : UserCreate.t) (db : Database) :
  get_db (register hash_password salt user) db =
  match find (fun u => String.eqb (User.username u) (UserCreate.username user))
          (users db) with
  | Some _ => (Raise (HTTPException 400 "Username already exists"), db)
  | None =>
      (Ok (Message.mk "User created"),
       mkDatabase
         (users db ++
          [new_user (UserCreate.username user)
             (hash_password salt (UserCreate.password user)) db])
         (todos db))
  end.
Proof.
  unfold get_db, register, bind, query_user_first, add_user, commit, ret, raise.
  cbv beta zeta. cbn [working committed users todos].
  destruct (find _ (users db)) eqn:E; [reflexivity|].
  cbv beta iota zeta. cbn [working committed users todos].
  rewrite (find_none_existsb _ _ E). reflexivity.
Qed.

Lemma login_run (now : Z) (form_data : LoginForm.t) (db : Database) :
  get_db (login verify_password jwt_encode ACCESS_TOKEN_EXPIRE now form_data) db =
  (match find (fun u => String.eqb (User.username u) (LoginForm.username form_data))
           (users db) with
   | None => Raise (HTTPException 401 "Invalid credentials")
   | Some user =>
       if verify_password (LoginForm.password form_data) (User.hashed_password user)
       then Ok (Token.mk
                  (create_access_token jwt_encode ACCESS_TOKEN_EXPIRE now
                     (User.username user))
                  "bearer")
       else Raise (HTTPException 401 "Invalid credentials")
   end, db).
Proof.
  unfold get_db, login, bind, query_user_first, ret, raise.
  cbn [working committed].
  destruct (find _ (users db)) as [u|]; [|reflexivity].
  destruct (verify_password _ _); reflexivity.
Qed.

Lemma create_todo_run (todo : TodoCreate.t) (current_user : User.t) (db : Database) :
  get_db (create_todo todo current_user) db =
  (Ok (new_row todo current_user db),
   mkDatabase (users db) (todos db ++ [new_row todo current_user db])).
Proof.
  unfold get_db, create_todo, bind, add_todo, commit, refresh.
  cbn [working committed todos users].
  rewrite (find_app_fresh _ (todos db) (new_row todo current_user db)).
  - reflexivity.
  - intros x Hx. apply Z.eqb_neq. intros Heq.
    apply (next_id_fresh (map Todo.id (todos db))).
    rewrite <- Heq. now apply in_map.
  - apply Z.eqb_refl.
Qed.

Lemma get_todos_run (current_user : User.t) (db : Database) :
  get_db (get_todos current_user) db =
  (Ok (filter (fun t => Todo.owner_id t =? User.id current_user) (todos db)), db).
Proof. reflexivity. Qed.

Lemma apply_update_id (todo : TodoUpdate.t) (t : Todo.t) :
  Todo.id (apply_update todo t) = Todo.id t.
Proof.
  unfold apply_update.
  destruct (TodoUpdate.title todo), (TodoUpdate.description todo),
    (TodoUpdate.completed todo); reflexivity.
Qed.

Lemma apply_update_owner (todo : TodoUpdate.t) (t : Todo.t) :
  Todo.owner_id (apply_update todo t) = Todo.owner_id t.
Proof.
  unfold apply_update.
  destruct (TodoUpdate.title todo), (TodoUpdate.description todo),
    (TodoUpdate.completed todo); reflexivity.
Qed.

Lemma update_todo_run (todo_id : Z) (todo : TodoUpdate.t)
    (current_user : User.t) (db : Database) :
  get_db (update_todo todo_id todo current_user) db =
  match find (owned_by todo_id current_user) (todos db) with
  | None => (Raise (HTTPException 404 "Todo not found"), db)
  | Some t =>
      (Ok (apply_update todo t),
       mkDatabase (users db)
         (map (fun r => if Todo.id r =? Todo.id t then apply_update todo t else r)
            (todos db)))
  end.
Proof.
  unfold get_db, update_todo, bind, query_todo_first, flush_todo, commit,
    refresh, raise.
  cbn [working committed todos users].
  change (fun t => (Todo.id t =? todo_id) && (Todo.owner_id t =? User.id current_user))
    with (owned_by todo_id current_user).
  destruct (find _ (todos db)) as [t|] eqn:E; [|reflexivity].
  apply find_some in E as [Hin _].
  cbv beta iota zeta. cbn [working committed users todos].
  rewrite (find_replaced (todos db) t (apply_update todo t) Hin (apply_update_id todo t)).
  rewrite apply_update_id. reflexivity.
Qed.

Lemma delete_todo_run (todo_id : Z) (current_user : User.t) (db : Database) :
  get_db (delete_todo todo_id current_user) db =
  match find (owned_by todo_id current_user) (todos db) with
  | None => (Raise (HTTPException 404 "Todo not found"), db)
  | Some t =>
      (Ok (Message.mk "Todo deleted"),
       mkDatabase (users db)
         (filter (fun r => negb (Todo.id r =? Todo.id t)) (todos db)))
  end.
Proof.
  unfold get_db, delete_todo, bind, query_todo_first, delete, commit, ret, raise.
  cbn [working committed todos users].
  change (fun t => (Todo.id t =? todo_id) && (Todo.owner_id t =? User.id current_user))
    with (owned_by todo_id current_user).
  destruct (find _ (todos db)); reflexivity.
Qed.

End Runs.

(** ** What each route computes on a store *)

Section Routes.

Variable hash_password : string -> string -> string.
Variable verify_password : string -> string -> bool.
Variable jwt_encode : Claims.t -> string.
Variable jwt_decode : string -> option Claims.t.
Variable ACCESS_TOKEN_EXPIRE : Z.
Variable lax_bool : json -> option bool.

Lemma get_db_auth {A : Type} (now : Z) (token : string) (k : User.t -> M A)
    (db : Database) :
  get_db (current_user <- get_current_user jwt_decode now token ;; k current_user) db =
  match authenticate jwt_decode now token db with
  | Raise e => (Raise e, db)
  | Ok current_user => get_db (k current_user) db
  end.
Proof.
  unfold get_db at 1, bind. rewrite get_current_user_session.
  destruct (authenticate jwt_decode now token db); reflexivity.
Qed.

Lemma get_db_validated {A B : Type} (v : option A) (k : A -> M B) (db : Database) :
  get_db (a <- validated v ;; k a) db =
  match v with
  | None => (Raise RequestValidationError, db)
  | Some a => get_db (k a) db
  end.
Proof. destruct v; reflexivity. Qed.

Lemma get_db_map {A B : Type} (m : M A) (f : A -> B) (db : Database) :
  get_db (a <- m ;; ret (f a)) db =
  (map_result f (fst (get_db m db)), snd (get_db m db)).
Proof.
  unfold get_db, bind, ret.
  destruct (m (mkSession db db)) as [[a|e] s]; reflexivity.
Qed.

Lemma post_register_run (salt : string) (b : body) (db : Database) :
  post_register hash_password salt b db =
  match parse_UserCreate b with
  | None => (Raise RequestValidationError, db)
  | Some user => get_db (register hash_password salt user) db
  end.
Proof. unfold post_register. apply get_db_validated. Qed.

Lemma post_todos_run (now : Z) (token : string) (b : body) (db : Database) :
  post_todos jwt_decode now token b db =
  match authenticate jwt_decode now token db with
  | Raise e => (Raise e, db)
  | Ok current_user =>
      match parse_TodoCreate b with
      | None => (Raise RequestValidationError, db)
      | Some todo =>
          (Ok (to_response (new_row todo current_user db)),
           mkDatabase (users db) (todos db ++ [new_row todo current_user db]))
      end
  end.
Proof.
  unfold post_todos. rewrite get_db_auth.
  destruct (authenticate jwt_decode now token db) as [u|e]; [|reflexivity].
  rewrite get_db_validated.
  destruct (parse_TodoCreate b) as [todo|]; [|reflexivity].
  rewrite get_db_map, create_todo_run. reflexivity.
Qed.

Lemma get_todos_route_run (now : Z) (token : string) (db : Database) :
  get_todos_route jwt_decode now token db =
  match authenticate jwt_decode now token db with
  | Raise e => (Raise e, db)
  | Ok current_user =>
      (Ok (map to_response
             (filter (fun t => Todo.owner_id t =? User.id current_user) (todos db))),
       db)
  end.
Proof.
  unfold get_todos_route. rewrite get_db_auth.
  destruct (authenticate jwt_decode now token db) as [u|e]; reflexivity.
Qed.

Lemma put_todos_run (now : Z) (token : string) (todo_id : Z) (b : body)
    (db : Database) :
  put_todos jwt_decode lax_bool now token todo_id b db =
  match authenticate jwt_decode now token db with
  | Raise e => (Raise e, db)
  | Ok current_user =>
      match parse_TodoUpdate lax_bool b with
      | None => (Raise RequestValidationError, db)
      | Some todo =>
          (map_result to_response
             (fst (get_db (update_todo todo_id todo current_user) db)),
           snd (get_db (update_todo todo_id todo current_user) db))
      end
  end.
Proof.
  unfold put_todos. rewrite get_db_auth.
  destruct (authenticate jwt_decode now token db) as [u|e]; [|reflexivity].
  rewrite get_db_validated.
  destruct (parse_TodoUpdate lax_bool b) as [todo|]; [|reflexivity].
  apply get_db_map.
Qed.

Lemma delete_todos_run (now : Z) (token : string) (todo_id : Z) (db : Database) :
  delete_todos jwt_decode now token todo_id db =
  match authenticate jwt_decode now token db with
  | Raise e => (Raise e, db)
  | Ok current_user => get_db (delete_todo todo_id current_user) db
  end.
Proof. unfold delete_todos. apply get_db_auth. Qed.

End Routes.

(** ** The schema constraints hold in every reachable store *)

Lemma NoDup_snoc {A : Type} (l : list A) (a : A) :
  NoDup l -> ~ In a l -> NoDup (l ++ [a]).
Proof.
  induction l as [|x l IH]; simpl; intros Hnd Hin.
  - constructor; [tauto|constructor].
  - inversion Hnd as [|? ? Hx Hl]; subst. constructor.
    + rewrite in_app_iff. simpl. intros [H|[H|[]]]; [tauto|]. subst. tauto.
    + apply IH; tauto.
Qed.

Lemma filter_keeps_keys_unique {R K : Type} (key : R -> K) (keep : R -> bool)
    (rows : list R) :
  NoDup (map key rows) -> NoDup (map key (filter keep rows)).
Proof.
  induction rows as [|x rows IH]; simpl; intros Hnd; [constructor|].
  inversion Hnd as [|? ? Hx Hl]; subst.
  destruct (keep x); simpl; [constructor|]; auto.
  intros Hin. apply Hx. apply in_map_iff in Hin as [y [Hy Hin]].
  apply filter_In in Hin as [Hin _]. rewrite <- Hy. now apply in_map.
Qed.

Lemma map_id_replaced (l : list Todo.t) (obj : Todo.t) :
  map Todo.id (map (fun r => if Todo.id r =? Todo.id obj then obj else r) l) =
  map Todo.id l.
Proof.
  induction l as [|x l IH]; simpl; [reflexivity|]. rewrite IH. f_equal.
  destruct (Todo.id x =? Todo.id obj) eqn:E; [|reflexivity].
  apply Z.eqb_eq in E. now symmetry.
Qed.

Lemma username_absent (name : string) (l : list User.t) :
  find (fun u => String.eqb (User.username u) name) l = None ->
  ~ In name (map User.username l).
Proof.
  intros E Hin. apply in_map_iff in Hin as [u [Hu Hin]].
  pose proof (find_none _ _ E u Hin) as H. cbv beta in H.
  rewrite Hu, String.eqb_refl in H. discriminate.
Qed.

Section Invariant.

Variable hash_password : string -> string -> string.
Variable verify_password : string -> string -> bool.
Variable jwt_encode : Claims.t -> string.
Variable jwt_decode : string -> option Claims.t.
Variable ACCESS_TOKEN_EXPIRE : Z.
Variable lax_bool : json -> option bool.

Lemma register_wf (salt : string) (user : UserCreate.t) (db : Database) :
  db_wf db -> db_wf (snd (get_db (register hash_password salt user) db)).
Proof.
  intros (Hid & Hname & Htodo). rewrite register_run.
  destruct (find _ (users db)) eqn:E; [now repeat split|].
  repeat split; cbn [snd users todos]; trivial; rewrite map_app; simpl.
  - apply NoDup_snoc; [exact Hid|apply next_id_fresh].
  - apply NoDup_snoc; [exact Hname|now apply username_absent].
Qed.

Lemma create_todo_wf (todo : TodoCreate.t) (current_user : User.t) (db : Database) :
  db_wf db -> db_wf (snd (get_db (create_todo todo current_user) db)).
Proof.
  intros (Hid & Hname & Htodo). rewrite create_todo_run.
  repeat split; cbn [snd users todos]; trivial. rewrite map_app; simpl.
  apply NoDup_snoc; [exact Htodo|apply next_id_fresh].
Qed.

Lemma update_todo_wf (todo_id : Z) (todo : TodoUpdate.t) (current_user : User.t)
    (db : Database) :
  db_wf db -> db_wf (snd (get_db (update_todo todo_id todo current_user) db)).
Proof.
  intros (Hid & Hname & Htodo). rewrite update_todo_run.
  destruct (find _ (todos db)) as [t|]; [|now repeat split].
  repeat split; cbn [snd users todos]; trivial.
  rewrite <- (apply_update_id todo t), map_id_replaced. exact Htodo.
Qed.

Lemma delete_todo_wf (todo_id : Z) (current_user : User.t) (db : Database) :
  db_wf db -> db_wf (snd (get_db (delete_todo todo_id current_user) db)).
Proof.
  intros (Hid & Hname & Htodo). rewrite delete_todo_run.
  destruct (find _ (todos db)) as [t|]; [|now repeat split].
  repeat split; cbn [snd users todos]; trivial.
  now apply filter_keeps_keys_unique.
Qed.

Lemma serve_wf (req : request) (db : Database) :
  db_wf db ->
  db_wf (serve hash_password verify_password jwt_encode jwt_decode
           ACCESS_TOKEN_EXPIRE lax_bool req db).
Proof.
  intros Hwf. destruct req; cbn [serve].
  - rewrite post_register_run. destruct (parse_UserCreate b); [|exact Hwf].
    now apply register_wf.
  - unfold post_login. rewrite login_run. exact Hwf.
  - rewrite post_todos_run.
    destruct (authenticate jwt_decode now token db) as [u|e]; [|exact Hwf].
    destruct (parse_TodoCreate b) as [todo|]; [|exact Hwf].
    pose proof (create_todo_wf todo u db Hwf) as H.
    rewrite create_todo_run in H. exact H.
  - rewrite get_todos_route_run.
    destruct (authenticate jwt_decode now token db); exact Hwf.
  - rewrite put_todos_run.
    destruct (authenticate jwt_decode now token db) as [u|e]; [|exact Hwf].
    destruct (parse_TodoUpdate lax_bool b) as [todo|]; [|exact Hwf].
    now apply update_todo_wf.
  - rewrite delete_todos_run.
    destruct (authenticate jwt_decode now token db) as [u|e]; [|exact Hwf].
    now apply delete_todo_wf.
Qed.

Lemma reachable_wf (db : Database) :
  reachable hash_password verify_password jwt_encode jwt_decode
    ACCESS_TOKEN_EXPIRE lax_bool db ->
  db_wf db.
Proof.
  induction 1 as [|req db _ IH].
  - repeat split; constructor.
  - now apply serve_wf.
Qed.

End Invariant.

(** ** The task store *)

Lemma owned_by_true (todo_id : Z) (current_user : User.t) (t : Todo.t) :
  owned_by todo_id current_user t = true <->
  Todo.id t = todo_id /\ Todo.owner_id t = User.id current_user.
Proof.
  unfold owned_by. rewrite andb_true_iff, !Z.eqb_eq. tauto.
Qed.

Lemma not_owned_lookup (todo_id : Z) (current_user : User.t) (db : Database) :
  (forall t, In t (todos db) -> Todo.id t = todo_id ->
             Todo.owner_id t <> User.id current_user) ->
  find (owned_by todo_id current_user) (todos db) = None.
Proof.
  intros H. apply find_none_iff. intros t Hin.
  destruct (owned_by todo_id current_user t) eqn:E; [|reflexivity].
  apply owned_by_true in E as [Hid Hown]. now elim (H t Hin Hid).
Qed.

Lemma owned_lookup (current_user : User.t) (t : Todo.t) (db : Database) :
  db_wf db -> In t (todos db) -> Todo.owner_id t = User.id current_user ->
  find (owned_by (Todo.id t) current_user) (todos db) = Some t.
Proof.
  intros (_ & _ & Hnd) Hin Hown.
  apply (find_unique Todo.id); trivial.
  - apply owned_by_true. now split.
  - intros x Hx. now apply owned_by_true in Hx.
Qed.

Lemma deleted_key_gone (key : Z) (l : list Todo.t) (t : Todo.t) :
  In t (filter (fun r => negb (Todo.id r =? key)) l) -> Todo.id t <> key.
Proof.
  intros Hin. apply filter_In in Hin as [_ Hne].
  apply negb_true_iff, Z.eqb_neq in Hne. exact Hne.
Qed.

(** C1.  Per-user isolation: in a store that satisfies the schema
    constraints, for two distinct users A and B and a task owned by A, the
    list of B does not hold the task nor any row with its id, update and
    delete of the task by B fail with 404 and leave the store as it was, and
    an update or a delete succeeds only on a row that carries both the
    asked id and the caller's id as owner. *)
Theorem per_user_isolation (db : Database) (A B : User.t) (t : Todo.t)
    (todo : TodoUpdate.t) :
  db_wf db ->
  In A (users db) -> In B (users db) -> A <> B ->
  In t (todos db) -> Todo.owner_id t = User.id A ->
  (exists rows,
      get_db (get_todos B) db = (Ok rows, db) /\
      ~ In t rows /\
      (forall r, In r rows -> Todo.id r <> Todo.id t) /\
      (forall r, In r rows -> Todo.owner_id r = User.id B)) /\
  get_db (update_todo (Todo.id t) todo B) db =
    (Raise (HTTPException 404 "Todo not found"), db) /\
  get_db (delete_todo (Todo.id t) B) db =
    (Raise (HTTPException 404 "Todo not found"), db) /\
  (forall todo_id r db',
      get_db (update_todo todo_id todo B) db = (Ok r, db') ->
      Todo.id r = todo_id /\ Todo.owner_id r = User.id B /\
      exists r0, In r0 (todos db) /\ Todo.id r0 = todo_id /\
                 Todo.owner_id r0 = User.id B) /\
  (forall todo_id m db',
      get_db (delete_todo todo_id B) db = (Ok m, db') ->
      exists r0, In r0 (todos db) /\ Todo.id r0 = todo_id /\
                 Todo.owner_id r0 = User.id B).
Proof.
  intros Hwf HA HB Hne Hin Hown.
  assert (Hid : User.id A <> User.id B).
  { intros Heq. apply Hne. destruct Hwf as (Hu & _ & _).
    now apply (unique_key_inj User.id (users db)). }
  assert (Hnone : find (owned_by (Todo.id t) B) (todos db) = None).
  { apply not_owned_lookup. intros r Hr Hrid.
    destruct Hwf as (_ & _ & Hnd).
    rewrite (unique_key_inj Todo.id (todos db) r t Hnd Hr Hin Hrid). congruence. }
  split; [|split; [|split; [|split]]].
  - exists (filter (fun r => Todo.owner_id r =? User.id B) (todos db)).
    split; [apply get_todos_run|]. split; [|split].
    + intros Hf. apply filter_In in Hf as [_ Hf]. apply Z.eqb_eq in Hf. congruence.
    + intros r Hr Hrid. apply filter_In in Hr as [Hr Hf]. apply Z.eqb_eq in Hf.
      destruct Hwf as (_ & _ & Hnd).
      rewrite (unique_key_inj Todo.id (todos db) r t Hnd Hr Hin Hrid) in Hf. congruence.
    + intros r Hr. apply filter_In in Hr as [_ Hf]. now apply Z.eqb_eq in Hf.
  - rewrite update_todo_run, Hnone. reflexivity.
  - rewrite delete_todo_run, Hnone. reflexivity.
  - intros todo_id r db'. rewrite update_todo_run.
    destruct (find (owned_by todo_id B) (todos db)) as [r0|] eqn:E;
      [|intros ?; discriminate].
    intros [= <- _]. apply find_some in E as [Hr0 Hp].
    apply owned_by_true in Hp as [H1 H2].
    rewrite apply_update_id, apply_update_owner. repeat split; trivial.
    now exists r0.
  - intros todo_id m db'. rewrite delete_todo_run.
    destruct (find (owned_by todo_id B) (todos db)) as [r0|] eqn:E;
      [|intros ?; discriminate].
    intros _. apply find_some in E as [Hr0 Hp].
    apply owned_by_true in Hp as [H1 H2]. now exists r0.
Qed.

(** C8.  NotFound and delete idempotence: when the store holds no task that
    carries both the asked id and the caller's id as owner (the id is
    unknown, or every task of that id belongs to someone else), or when the
    store is what a successful delete of that id by anyone left behind,
    update and delete answer with one and the same 404 error and leave the
    store as it was. *)
Theorem not_found_semantics (db : Database) (current_user : User.t) (todo_id : Z)
    (todo : TodoUpdate.t) :
  (forall t, In t (todos db) -> Todo.id t = todo_id ->
             Todo.owner_id t <> User.id current_user) \/
  (exists db0 deleter m,
      get_db (delete_todo todo_id deleter) db0 = (Ok m, db)) ->
  get_db (update_todo todo_id todo current_user) db =
    (Raise (HTTPException 404 "Todo not found"), db) /\
  get_db (delete_todo todo_id current_user) db =
    (Raise (HTTPException 404 "Todo not found"), db) /\
  status_of (fst (get_db (update_todo todo_id todo current_user) db)) = 404 /\
  status_of (fst (get_db (delete_todo todo_id current_user) db)) = 404.
Proof.
  intros H.
  assert (Hnone : find (owned_by todo_id current_user) (todos db) = None).
  { destruct H as [H|(db0 & deleter & m & H)].
    - now apply not_owned_lookup.
    - rewrite delete_todo_run in H.
      destruct (find _ (todos db0)) as [t0|] eqn:E; [|discriminate].
      apply find_some in E as [_ Hp]. apply owned_by_true in Hp as [Hid0 _].
      injection H as _ <-. apply not_owned_lookup. cbn [todos].
      intros t Hin Hid. apply deleted_key_gone in Hin. congruence. }
  rewrite update_todo_run, delete_todo_run, Hnone. repeat split.
Qed.

Lemma demo_db_wf : db_wf demo_db.
Proof.
  repeat split; simpl;
    repeat (constructor; [simpl; intuition (discriminate || lia)|]); constructor.
Qed.

Lemma per_user_isolation_witness :
  get_db (update_todo 1 (TodoUpdate.mk None None (Some true)) bob) demo_db =
    (Raise (HTTPException 404 "Todo not found"), demo_db) /\
  get_db (delete_todo 1 bob) demo_db =
    (Raise (HTTPException 404 "Todo not found"), demo_db).
Proof.
  assert (H := per_user_isolation demo_db alice bob
                 (Todo.mk 1 "Buy milk" None false 1)
                 (TodoUpdate.mk None None (Some true)) demo_db_wf).
  simpl in H.
  destruct H as (_ & Hu & Hd & _); auto.
  discriminate.
Defined.

Lemma not_found_semantics_witness :
  get_db (delete_todo 1 alice)
    (snd (get_db (delete_todo 1 alice) demo_db)) =
    (Raise (HTTPException 404 "Todo not found"),
     snd (get_db (delete_todo 1 alice) demo_db)) /\
  get_db (update_todo 7 (TodoUpdate.mk (Some "x") None None) bob) demo_db =
    (Raise (HTTPException 404 "Todo not found"), demo_db).
Proof.
  split.
  - apply (not_found_semantics _ alice 1 (TodoUpdate.mk None None None)).
    right. exists demo_db, alice, (Message.mk "Todo deleted"). reflexivity.
  - apply (not_found_semantics demo_db bob 7 (TodoUpdate.mk (Some "x") None None)).
    left. simpl. intros t [<-|[<-|[]]]; simpl; lia.
Defined.

(** ** Partial update *)

Lemma validate_opt_null {A : Type} (validate : option json -> option A) :
  validate_opt validate (Some JNull) = validate_opt validate None.
Proof. reflexivity. Qed.

(** An explicit null is read like an absent key, whatever the key. *)
Lemma parse_TodoUpdate_null (lax_bool : json -> option bool) (b : body) (k : string) :
  field k b = Some JNull ->
  parse_TodoUpdate lax_bool (without k b) = parse_TodoUpdate lax_bool b.
Proof.
  intros Hk. unfold parse_TodoUpdate.
  assert (H : forall (A : Type) (v : option json -> option A) (k' : string),
             validate_opt v (field k' (without k b)) = validate_opt v (field k' b)).
  { intros A v k'. destruct (String.eqb k' k) eqn:E.
    - apply String.eqb_eq in E. subst k'.
      now rewrite field_without_same, Hk.
    - apply String.eqb_neq in E. now rewrite field_without_other. }
  now rewrite !H.
Qed.

(** C2.  Partial update: for a task owned by the caller in a store that
    satisfies the schema constraints, update succeeds with the task in which
    exactly the non-null fields of the request are replaced and every other
    field, the id and the owner are as before; the store holds the new task
    in the place of the old one and every other row as it was; a field that
    was set stays set; a body with an explicit null is read like the body
    without that key; and the update [{completed: true}] changes the
    completed flag alone. *)
Theorem partial_update_frame (lax_bool : json -> option bool) (db : Database)
    (current_user : User.t) (t : Todo.t) (todo : TodoUpdate.t) :
  db_wf db -> In t (todos db) -> Todo.owner_id t = User.id current_user ->
  let t' := apply_update todo t in
  get_db (update_todo (Todo.id t) todo current_user) db =
    (Ok t',
     mkDatabase (users db) (map (fun r => if Todo.id r =? Todo.id t then t' else r)
                              (todos db))) /\
  (forall r, In r (todos db) -> r <> t -> (Todo.id r =? Todo.id t) = false) /\
  Todo.id t' = Todo.id t /\
  Todo.owner_id t' = Todo.owner_id t /\
  Todo.title t' =
    match TodoUpdate.title todo with Some s => s | None => Todo.title t end /\
  Todo.description t' =
    match TodoUpdate.description todo with
    | Some d => Some d
    | None => Todo.description t
    end /\
  Todo.completed t' =
    match TodoUpdate.completed todo with Some c => c | None => Todo.completed t end /\
  (Todo.description t <> None -> Todo.description t' <> None) /\
  (forall (b : body) (k : string),
      field k b = Some JNull ->
      parse_TodoUpdate lax_bool b = parse_TodoUpdate lax_bool (without k b)) /\
  (forall (jwt_decode : string -> option Claims.t) (now : Z) (token : string)
          (todo_id : Z) (b : body) (k : string),
      field k b = Some JNull ->
      put_todos jwt_decode lax_bool now token todo_id b db =
      put_todos jwt_decode lax_bool now token todo_id (without k b) db) /\
  parse_TodoUpdate lax_bool [("completed", JBool true)] =
    Some (TodoUpdate.mk None None (Some true)) /\
  apply_update (TodoUpdate.mk None None (Some true)) t =
    Todo.mk (Todo.id t) (Todo.title t) (Todo.description t) true (Todo.owner_id t).
Proof.
  intros Hwf Hin Hown t'. subst t'.
  split; [|split].
  - rewrite update_todo_run, (owned_lookup current_user t db Hwf Hin Hown).
    reflexivity.
  - intros r Hr Hne. apply Z.eqb_neq. intros Heq. apply Hne.
    destruct Hwf as (_ & _ & Hnd).
    now apply (unique_key_inj Todo.id (todos db)).
  - unfold apply_update.
    destruct todo as [[s|] [d|] [c|]]; destruct t as [i ti de co ow]; cbn;
      repeat split; try discriminate; try tauto;
      intros; rewrite ?put_todos_run; now rewrite parse_TodoUpdate_null.
Qed.

Lemma partial_update_frame_witness :
  get_db (update_todo 1 (TodoUpdate.mk None None (Some true)) alice) demo_db =
    (Ok (Todo.mk 1 "Buy milk" None true 1),
     mkDatabase [alice; bob]
       [Todo.mk 1 "Buy milk" None true 1;
        Todo.mk 2 "Write report" (Some "draft") false 2]).
Proof.
  apply (partial_update_frame demo_lax_bool demo_db alice
           (Todo.mk 1 "Buy milk" None false 1)
           (TodoUpdate.mk None None (Some true)) demo_db_wf).
  - simpl. auto.
  - reflexivity.
Defined.

(** ** Creating a task *)

(** Keys that [TodoCreate] does not declare play no part in validation. *)
Lemma parse_TodoCreate_extra (b : body) (k : string) :
  k <> "title" -> k <> "description" ->
  parse_TodoCreate (without k b) = parse_TodoCreate b.
Proof.
  intros H1 H2. unfold parse_TodoCreate.
  rewrite !field_without_other by congruence. reflexivity.
Qed.

(** C3, as the code has it.  For an authenticated caller, a create request
    whose body carries no title, or a title that is not a JSON string (an
    explicit null included), is rejected at the boundary and the store is
    left as it was; a body whose title is any JSON string, the empty string
    included, and whose description is absent, null or a string, creates a
    task with exactly that title. *)
Theorem create_requires_title (jwt_decode : string -> option Claims.t) (now : Z)
    (token : string) (b : body) (db : Database) (current_user : User.t) :
  authenticate jwt_decode now token db = Ok current_user ->
  ((forall s, field "title" b <> Some (JStr s)) ->
   post_todos jwt_decode now token b db = (Raise RequestValidationError, db)) /\
  (forall s d,
      field "title" b = Some (JStr s) ->
      validate_opt validate_str (field "description" b) = Some d ->
      let row := Todo.mk (next_id (map Todo.id (todos db))) s d false
                   (User.id current_user) in
      post_todos jwt_decode now token b db =
        (Ok (to_response row), mkDatabase (users db) (todos db ++ [row])) /\
      TodoResponse.title (to_response row) = s).
Proof.
  intros Hauth. rewrite post_todos_run, Hauth. unfold parse_TodoCreate. split.
  - intros Hno. destruct (field "title" b) as [[| | |s]|]; try reflexivity.
    now elim (Hno s).
  - intros s d Ht Hd. rewrite Ht, Hd. split; reflexivity.
Qed.

Lemma create_requires_title_witness :
  post_todos demo_decode 100 "v1.alice" [("description", JStr "no title")] demo_db =
    (Raise RequestValidationError, demo_db) /\
  post_todos demo_decode 100 "v1.alice" [("title", JNull)] demo_db =
    (Raise RequestValidationError, demo_db).
Proof.
  split.
  - apply (create_requires_title demo_decode 100 "v1.alice" _ demo_db alice).
    + reflexivity.
    + simpl. discriminate.
  - apply (create_requires_title demo_decode 100 "v1.alice" _ demo_db alice).
    + reflexivity.
    + simpl. discriminate.
Defined.

(** C3, as the specification words it, fails: a create request whose title
    is the empty string passes the boundary, and a task with an empty title
    is stored. *)
Lemma empty_title_is_accepted :
  validate_str (field "title" [("title", JStr "")]) = Some "" /\
  post_todos demo_decode 100 "v1.alice" [("title", JStr "")] demo_db =
    (Ok (TodoResponse.mk 3 "" None false),
     mkDatabase [alice; bob]
       [Todo.mk 1 "Buy milk" None false 1;
        Todo.mk 2 "Write report" (Some "draft") false 2;
        Todo.mk 3 "" None false 1]).
Proof. split; reflexivity. Qed.

(** C6.  Owner assignment: whenever a create request succeeds, whatever its
    body, the request was authenticated, the store gains exactly one row,
    that row is the one answered, and its owner is the id of the
    authenticated caller; a key of the body that the schema does not
    declare, such as an owner id, changes nothing. *)
Theorem owner_is_caller (jwt_decode : string -> option Claims.t) (now : Z)
    (token : string) (b : body) (db db' : Database) (r : TodoResponse.t) :
  post_todos jwt_decode now token b db = (Ok r, db') ->
  (exists current_user row,
      authenticate jwt_decode now token db = Ok current_user /\
      users db' = users db /\
      todos db' = (todos db ++ [row])%list /\
      r = to_response row /\
      Todo.owner_id row = User.id current_user) /\
  (forall k, k <> "title" -> k <> "description" ->
             post_todos jwt_decode now token (without k b) db = (Ok r, db')) /\
  (forall k v, k <> "title" -> k <> "description" ->
               post_todos jwt_decode now token (without k b ++ [(k, v)])%list db =
               (Ok r, db')).
Proof.
  intros H. split; [|split].
  - rewrite post_todos_run in H.
    destruct (authenticate jwt_decode now token db) as [u|e]; [|discriminate].
    destruct (parse_TodoCreate b) as [todo|]; [|discriminate].
    injection H as <- <-. exists u, (new_row todo u db). repeat split.
  - intros k H1 H2. rewrite <- H, !post_todos_run.
    now rewrite parse_TodoCreate_extra.
  - intros k v H1 H2. rewrite <- H, !post_todos_run.
    replace (parse_TodoCreate (without k b ++ [(k, v)])%list) with (parse_TodoCreate b);
      [reflexivity|].
    rewrite <- (parse_TodoCreate_extra b k H1 H2). unfold parse_TodoCreate, field.
    rewrite !find_append.
    assert (Hk : forall k', k' <> k ->
              find (fun kv : string * json => String.eqb (fst kv) k') [(k, v)] = None).
    { intros k' Hne. simpl. destruct (String.eqb k k') eqn:E; [|reflexivity].
      apply String.eqb_eq in E. congruence. }
    rewrite !Hk by congruence.
    destruct (find _ (without k b)), (find _ (without k b)); reflexivity.
Qed.

Lemma owner_is_caller_witness :
  exists current_user row,
    authenticate demo_decode 100 "v1.bob" demo_db = Ok current_user /\
    users (mkDatabase [alice; bob]
             [Todo.mk 1 "Buy milk" None false 1;
              Todo.mk 2 "Write report" (Some "draft") false 2;
              Todo.mk 3 "Call" None false 2]) = users demo_db /\
    [Todo.mk 1 "Buy milk" None false 1;
     Todo.mk 2 "Write report" (Some "draft") false 2;
     Todo.mk 3 "Call" None false 2] = (todos demo_db ++ [row])%list /\
    TodoResponse.mk 3 "Call" None false = to_response row /\
    Todo.owner_id row = User.id current_user.
Proof.
  apply (owner_is_caller demo_decode 100 "v1.bob"
           [("title", JStr "Call"); ("owner_id", JInt 1)] demo_db).
  reflexivity.
Defined.

(** ** Registration and login *)

Section Credentials.

Variable hash_password : string -> string -> string.
Variable verify_password : string -> string -> bool.
Variable jwt_encode : Claims.t -> string.
Variable ACCESS_TOKEN_EXPIRE : Z.

Lemma username_lookup_present (name : string) (l : list User.t) (u : User.t) :
  In u l -> User.username u = name ->
  exists u', find (fun x => String.eqb (User.username x) name) l = Some u'.
Proof.
  intros Hin Hname.
  destruct (find (fun x => String.eqb (User.username x) name) l) as [u'|] eqn:E.
  - now exists u'.
  - pose proof (find_none _ _ E u Hin) as H. cbv beta in H.
    rewrite Hname, String.eqb_refl in H. discriminate.
Qed.

Lemma username_lookup_absent (name : string) (l : list User.t) :
  (forall u, In u l -> User.username u <> name) ->
  find (fun x => String.eqb (User.username x) name) l = None.
Proof.
  intros H. apply find_none_iff. intros u Hin. apply String.eqb_neq. now apply H.
Qed.

(** A successful registration: the name was free and one row was added. *)
Lemma register_ok (salt : string) (user : UserCreate.t) (db db' : Database)
    (m : Message.t) :
  get_db (register hash_password salt user) db = (Ok m, db') ->
  find (fun u => String.eqb (User.username u) (UserCreate.username user))
    (users db) = None /\
  m = Message.mk "User created" /\
  db' = mkDatabase
          (users db ++
           [new_user (UserCreate.username user)
              (hash_password salt (UserCreate.password user)) db])
          (todos db).
Proof.
  rewrite register_run.
  destruct (find _ (users db)); [discriminate|].
  intros [= <- <-]. repeat split.
Qed.

(** A name that no row carries, letter for letter, can be registered. *)
Lemma register_fresh_username (salt : string) (user : UserCreate.t) (db : Database) :
  (forall u, In u (users db) -> User.username u <> UserCreate.username user) ->
  is_ok (fst (get_db (register hash_password salt user) db)) = true.
Proof.
  intros H. rewrite register_run, (username_lookup_absent _ _ H). reflexivity.
Qed.

(** C4.  Duplicate registration: when the store holds a user whose
    username equals the given one character for character, or when the
    store is what a successful registration of that username left behind,
    register fails with 400 "Username already exists" and the store is
    left as it was. *)
Theorem duplicate_registration (salt : string) (user : UserCreate.t)
    (db : Database) :
  (exists u, In u (users db) /\ User.username u = UserCreate.username user) \/
  (exists db0 salt0 password0 m,
      get_db (register hash_password salt0
                (UserCreate.mk (UserCreate.username user) password0)) db0 =
      (Ok m, db)) ->
  get_db (register hash_password salt user) db =
    (Raise (HTTPException 400 "Username already exists"), db) /\
  status_of (fst (get_db (register hash_password salt user) db)) = 400.
Proof.
  intros H.
  assert (Hex : exists u, In u (users db) /\
                          User.username u = UserCreate.username user).
  { destruct H as [H|(db0 & salt0 & p0 & m & H)]; [exact H|].
    apply register_ok in H as (_ & _ & ->). cbn [users UserCreate.username].
    eexists. split; [apply in_or_app; right; left; reflexivity|reflexivity]. }
  destruct Hex as (u & Hin & Hname).
  destruct (username_lookup_present _ _ u Hin Hname) as [u' E].
  rewrite register_run, E. split; reflexivity.
Qed.

(** C5.  Round trip: after a successful register of [u] with [p], and for
    a hasher whose verification accepts [p] against the hash it stored,
    login with [u] and [p] succeeds with a token of type "bearer" issued
    for [u]; login with [u] and any password that does not verify against
    the stored hash fails with 401, and so does login with a username that
    no row carries; none of them touches the store. *)
Theorem register_login_roundtrip (salt u p : string) (db db' : Database)
    (m : Message.t) (now : Z) :
  get_db (register hash_password salt (UserCreate.mk u p)) db = (Ok m, db') ->
  verify_password p (hash_password salt p) = true ->
  get_db (login verify_password jwt_encode ACCESS_TOKEN_EXPIRE now
            (LoginForm.mk u p)) db' =
    (Ok (Token.mk (create_access_token jwt_encode ACCESS_TOKEN_EXPIRE now u)
           "bearer"), db') /\
  (forall p',
      verify_password p' (hash_password salt p) = false ->
      get_db (login verify_password jwt_encode ACCESS_TOKEN_EXPIRE now
                (LoginForm.mk u p')) db' =
        (Raise (HTTPException 401 "Invalid credentials"), db')) /\
  (forall name p',
      (forall x, In x (users db') -> User.username x <> name) ->
      get_db (login verify_password jwt_encode ACCESS_TOKEN_EXPIRE now
                (LoginForm.mk name p')) db' =
        (Raise (HTTPException 401 "Invalid credentials"), db')).
Proof.
  intros Hreg Hver.
  apply register_ok in Hreg as (Hfree & _ & ->).
  cbn [UserCreate.username UserCreate.password] in *.
  assert (Hfind : find (fun x => String.eqb (User.username x) u)
                    (users db ++ [new_user u (hash_password salt p) db]) =
                  Some (new_user u (hash_password salt p) db)).
  { apply find_app_fresh.
    - now apply find_none_iff.
    - apply String.eqb_refl. }
  split; [|split].
  - rewrite login_run. cbn [users LoginForm.username LoginForm.password].
    rewrite Hfind. cbn [new_user User.hashed_password User.username].
    now rewrite Hver.
  - intros p' Hbad. rewrite login_run.
    cbn [users LoginForm.username LoginForm.password].
    rewrite Hfind. cbn [new_user User.hashed_password User.username].
    now rewrite Hbad.
  - intros name p' Habs. rewrite login_run.
    cbn [LoginForm.username LoginForm.password].
    now rewrite (username_lookup_absent _ _ Habs).
Qed.

(** C9.  Registration stores the hash: a successful register adds exactly
    one user row, made of a fresh id, the username and the hash of the
    password, and touches nothing else; the password reaches the store
    through the hasher alone, so that two passwords of equal hash leave
    the same store, and the stored field is the plaintext only where the
    hasher hands its input back. *)
Theorem register_stores_hash (salt : string) (user : UserCreate.t)
    (db db' : Database) (m : Message.t) :
  get_db (register hash_password salt user) db = (Ok m, db') ->
  users db' =
    (users db ++
     [User.mk (next_id (map User.id (users db))) (UserCreate.username user)
        (hash_password salt (UserCreate.password user))])%list /\
  List.length (users db') = S (List.length (users db)) /\
  todos db' = todos db /\
  (forall password2,
      hash_password salt password2 = hash_password salt (UserCreate.password user) ->
      get_db (register hash_password salt
                (UserCreate.mk (UserCreate.username user) password2)) db =
      (Ok m, db')) /\
  (hash_password salt (UserCreate.password user) <> UserCreate.password user ->
   forall u, In u (users db') -> ~ In u (users db) ->
             User.hashed_password u <> UserCreate.password user).
Proof.
  intros Hreg. apply register_ok in Hreg as (Hfree & -> & ->).
  cbn [users todos]. repeat split.
  - rewrite length_app. simpl. lia.
  - intros p2 Hp2. rewrite register_run.
    cbn [UserCreate.username UserCreate.password].
    now rewrite Hfree, Hp2.
  - intros Hne u Hin Hold.
    apply in_app_or in Hin as [Hin|[<-|[]]]; [now elim Hold|].
    exact Hne.
Qed.

End Credentials.

Lemma duplicate_registration_witness :
  get_db (register demo_hash "s2" (UserCreate.mk "carol" "other"))
    (snd (get_db (register demo_hash "s1" (UserCreate.mk "carol" "pw")) demo_db)) =
  (Raise (HTTPException 400 "Username already exists"),
   snd (get_db (register demo_hash "s1" (UserCreate.mk "carol" "pw")) demo_db)).
Proof.
  apply (duplicate_registration demo_hash "s2" (UserCreate.mk "carol" "other")).
  right. exists demo_db, "s1", "pw", (Message.mk "User created"). reflexivity.
Defined.

Lemma register_login_roundtrip_witness :
  get_db (login demo_verify demo_encode 1800 50 (LoginForm.mk "carol" "pw"))
    (snd (get_db (register demo_hash "s1" (UserCreate.mk "carol" "pw")) demo_db)) =
  (Ok (Token.mk (create_access_token demo_encode 1800 50 "carol") "bearer"),
   snd (get_db (register demo_hash "s1" (UserCreate.mk "carol" "pw")) demo_db)).
Proof.
  apply (register_login_roundtrip demo_hash demo_verify demo_encode 1800
           "s1" "carol" "pw" demo_db _ (Message.mk "User created") 50).
  - reflexivity.
  - reflexivity.
Defined.

Lemma register_stores_hash_witness :
  users (snd (get_db (register demo_hash "s1" (UserCreate.mk "carol" "pw")) demo_db)) =
  [alice; bob; User.mk 3 "carol" "h(pw)"].
Proof.
  apply (register_stores_hash demo_hash "s1" (UserCreate.mk "carol" "pw") demo_db _
           (Message.mk "User created")).
  reflexivity.
Defined.

(** ** The authorization guard *)

Section Guard.

Variable jwt_decode : string -> option Claims.t.
Variable lax_bool : json -> option bool.

Lemma authenticate_run (now : Z) (token : string) (db : Database) :
  authenticate jwt_decode now token db =
  match decode_token jwt_decode now token with
  | Raise e => Raise e
  | Ok username =>
      match find (fun u => String.eqb (User.username u) username) (users db) with
      | None => Raise (HTTPException 401 "User not found")
      | Some user => Ok user
      end
  end.
Proof.
  unfold authenticate, get_db. rewrite get_current_user_run. reflexivity.
Qed.


(** C7.  Authentication failures: when the token does not decode (it is
    malformed or its signature does not check), or its expiry lies in the
    past, or its subject is the username of no user in the store, the
    guard fails with a 401 error, and every protected route answers with
    that error and leaves the store as it was. *)
Theorem authentication_failures (now : Z) (token : string) (db : Database) :
  jwt_decode token = None \/
  (exists c, jwt_decode token = Some c /\ Claims.exp c < now) \/
  (exists c, jwt_decode token = Some c /\
             forall u, In u (users db) -> User.username u <> Claims.sub c) ->
  exists detail,
    authenticate jwt_decode now token db = Raise (HTTPException 401 detail) /\
    (forall b, post_todos jwt_decode now token b db =
               (Raise (HTTPException 401 detail), db)) /\
    get_todos_route jwt_decode now token db =
      (Raise (HTTPException 401 detail), db) /\
    (forall todo_id b, put_todos jwt_decode lax_bool now token todo_id b db =
                       (Raise (HTTPException 401 detail), db)) /\
    (forall todo_id, delete_todos jwt_decode now token todo_id db =
                     (Raise (HTTPException 401 detail), db)).
Proof.
  intros H.
  assert (Hauth : exists detail,
             authenticate jwt_decode now token db = Raise (HTTPException 401 detail)).
  { rewrite authenticate_run. unfold decode_token.
    destruct H as [->|[(c & -> & Hexp)|(c & -> & Habs)]].
    - eauto.
    - apply Z.ltb_lt in Hexp. rewrite Hexp. eauto.
    - destruct (Claims.exp c <? now); [eauto|].
      rewrite (proj2 (find_none_iff _ _)); [eauto|].
      intros u Hin. apply String.eqb_neq. now apply Habs. }
  destruct Hauth as [detail Hauth]. exists detail.
  split; [exact Hauth|]. repeat split; intros;
    rewrite ?post_todos_run, ?get_todos_route_run, ?put_todos_run,
      ?delete_todos_run, Hauth; reflexivity.
Qed.

(** C10.  Failure is atomic: an update or a delete that fails with 404
    leaves the store as it was, and so does a request to a protected
    route that fails with 401. *)
Theorem failure_is_atomic (now : Z) (token : string) (todo_id : Z)
    (todo : TodoUpdate.t) (current_user : User.t) (b : body) (db : Database) :
  (forall detail db',
      get_db (update_todo todo_id todo current_user) db =
        (Raise (HTTPException 404 detail), db') -> db' = db) /\
  (forall detail db',
      get_db (delete_todo todo_id current_user) db =
        (Raise (HTTPException 404 detail), db') -> db' = db) /\
  (forall detail db',
      post_todos jwt_decode now token b db =
        (Raise (HTTPException 401 detail), db') -> db' = db) /\
  (forall detail db',
      get_todos_route jwt_decode now token db =
        (Raise (HTTPException 401 detail), db') -> db' = db) /\
  (forall detail db',
      put_todos jwt_decode lax_bool now token todo_id b db =
        (Raise (HTTPException 401 detail), db') -> db' = db) /\
  (forall detail db',
      delete_todos jwt_decode now token todo_id db =
        (Raise (HTTPException 401 detail), db') -> db' = db).
Proof.
  repeat split; intros detail db'.
  - rewrite update_todo_run.
    destruct (find _ (todos db)); [discriminate|]. now intros [= _ <-].
  - rewrite delete_todo_run.
    destruct (find _ (todos db)); [discriminate|]. now intros [= _ <-].
  - rewrite post_todos_run.
    destruct (authenticate jwt_decode now token db); [|now intros [= _ <-]].
    destruct (parse_TodoCreate b); discriminate.
  - rewrite get_todos_route_run.
    destruct (authenticate jwt_decode now token db); [discriminate|].
    now intros [= _ <-].
  - rewrite put_todos_run.
    destruct (authenticate jwt_decode now token db) as [u|e]; [|now intros [= _ <-]].
    destruct (parse_TodoUpdate lax_bool b) as [td|]; [|discriminate].
    rewrite update_todo_run.
    destruct (find _ (todos db)); cbn [fst snd map_result]; [discriminate|].
    intros [=].
  - rewrite delete_todos_run.
    destruct (authenticate jwt_decode now token db) as [u|e]; [|now intros [= _ <-]].
    rewrite delete_todo_run.
    destruct (find _ (todos db)); [discriminate|]. intros [=].
Qed.

End Guard.

Lemma authentication_failures_witness :
  exists detail,
    authenticate demo_decode 100 "old.alice" demo_db =
      Raise (HTTPException 401 detail) /\
    (forall b, post_todos demo_decode 100 "old.alice" b demo_db =
               (Raise (HTTPException 401 detail), demo_db)) /\
    get_todos_route demo_decode 100 "old.alice" demo_db =
      (Raise (HTTPException 401 detail), demo_db) /\
    (forall todo_id b,
        put_todos demo_decode demo_lax_bool 100 "old.alice" todo_id b demo_db =
        (Raise (HTTPException 401 detail), demo_db)) /\
    (forall todo_id, delete_todos demo_decode 100 "old.alice" todo_id demo_db =
                     (Raise (HTTPException 401 detail), demo_db)).
Proof.
  apply (authentication_failures demo_decode demo_lax_bool 100 "old.alice" demo_db).
  right. left. exists (Claims.mk "alice" 10). split; [reflexivity|simpl; lia].
Defined.

Lemma failure_is_atomic_witness :
  snd (get_db (delete_todo 2 alice) demo_db) = demo_db /\
  snd (get_todos_route demo_decode 100 "garbage" demo_db) = demo_db.
Proof.
  destruct (failure_is_atomic demo_decode demo_lax_bool 100 "garbage" 2
              (TodoUpdate.mk None None None) alice [] demo_db)
    as (_ & Hd & _ & Hg & _).
  split.
  - apply (Hd "Todo not found"). reflexivity.
  - apply (Hg "Invalid token"). reflexivity.
Defined.

(** ** Further properties of the handlers *)

Lemma filter_all {A : Type} (p : A -> bool) (l : list A) :
  (forall x, In x l -> p x = true) -> filter p l = l.
Proof.
  induction l as [|x l IH]; simpl; intros H; [reflexivity|].
  rewrite (H x (or_introl eq_refl)). f_equal. apply IH. intros y Hy. apply H. now right.
Qed.

Lemma filter_of_filter {A : Type} (p q : A -> bool) (l : list A) :
  (forall x, In x l -> p x = true -> q x = true) ->
  filter p (filter q l) = filter p l.
Proof.
  induction l as [|x l IH]; simpl; intros H; [reflexivity|].
  assert (IH' : filter p (filter q l) = filter p l)
    by (apply IH; intros y Hy; apply H; now right).
  destruct (q x) eqn:Eq; simpl.
  - now rewrite IH'.
  - rewrite IH'. destruct (p x) eqn:Ep; [|reflexivity].
    rewrite (H x (or_introl eq_refl) Ep) in Eq. discriminate.
Qed.

Lemma filter_of_map {A : Type} (p : A -> bool) (f : A -> A) (l : list A) :
  (forall x, In x l -> p (f x) = p x) ->
  filter p (map f l) = map f (filter p l).
Proof.
  induction l as [|x l IH]; simpl; intros H; [reflexivity|].
  rewrite (H x (or_introl eq_refl)).
  assert (IH' : filter p (map f l) = map f (filter p l))
    by (apply IH; intros y Hy; apply H; now right).
  destruct (p x); simpl; now rewrite IH'.
Qed.

Lemma map_fixed {A : Type} (f : A -> A) (l : list A) :
  (forall x, In x l -> f x = x) -> map f l = l.
Proof.
  induction l as [|x l IH]; simpl; intros H; [reflexivity|].
  rewrite (H x (or_introl eq_refl)). f_equal. apply IH. intros y Hy. apply H. now right.
Qed.

Lemma database_eta (db : Database) : mkDatabase (users db) (todos db) = db.
Proof. now destruct db. Qed.

(** Under unique keys, the rows that carry the key of [t] are [t] itself. *)
Lemma same_key_same_row (db : Database) (t r : Todo.t) :
  db_wf db -> In t (todos db) -> In r (todos db) ->
  (Todo.id r =? Todo.id t) = true -> r = t.
Proof.
  intros (_ & _ & Hnd) Ht Hr Heq. apply Z.eqb_eq in Heq.
  now apply (unique_key_inj Todo.id (todos db)).
Qed.

Lemma apply_update_twice (todo : TodoUpdate.t) (t : Todo.t) :
  apply_update todo (apply_update todo t) = apply_update todo t.
Proof.
  unfold apply_update.
  destruct (TodoUpdate.title todo), (TodoUpdate.description todo),
    (TodoUpdate.completed todo); reflexivity.
Qed.

Lemma update_todo_replaced (todo_id : Z) (todo : TodoUpdate.t)
    (current_user : User.t) (db db' : Database) (r : Todo.t) :
  get_db (update_todo todo_id todo current_user) db = (Ok r, db') ->
  exists t,
    In t (todos db) /\ Todo.id t = todo_id /\
    Todo.owner_id t = User.id current_user /\
    r = apply_update todo t /\
    db' = mkDatabase (users db) (replaced r (todos db)).
Proof.
  rewrite update_todo_run.
  destruct (find (owned_by todo_id current_user) (todos db)) as [t|] eqn:E;
    [|intros ?; discriminate].
  intros [= <- <-]. apply find_some in E as [Hin Hp].
  apply owned_by_true in Hp as [Hid Hown].
  exists t. unfold replaced. rewrite apply_update_id. repeat split; trivial.
Qed.

Lemma In_replaced (obj t : Todo.t) (rows : list Todo.t) :
  In t rows -> Todo.id obj = Todo.id t -> In obj (replaced obj rows).
Proof.
  intros Hin Hid. unfold replaced. apply in_map_iff. exists t.
  split; [|exact Hin]. now rewrite Hid, Z.eqb_refl.
Qed.

Lemma replaced_twice (obj : Todo.t) (rows : list Todo.t) :
  replaced obj (replaced obj rows) = replaced obj rows.
Proof.
  unfold replaced. rewrite map_map. apply map_ext. intros r.
  destruct (Todo.id r =? Todo.id obj) eqn:E.
  - now rewrite Z.eqb_refl.
  - now rewrite E.
Qed.

Lemma length_after_delete (rows : list Todo.t) (t : Todo.t) :
  NoDup (map Todo.id rows) -> In t rows ->
  S (List.length (filter (fun r => negb (Todo.id r =? Todo.id t)) rows)) =
  List.length rows.
Proof.
  induction rows as [|x rows IH]; simpl; [tauto|].
  intros Hnd Hin. inversion Hnd as [|? ? Hx Hl]; subst.
  destruct Hin as [->|Hin].
  - rewrite Z.eqb_refl. simpl. f_equal. f_equal. apply filter_all.
    intros y Hy. apply negb_true_iff, Z.eqb_neq. intros Heq.
    apply Hx. rewrite <- Heq. now apply in_map.
  - destruct (Todo.id x =? Todo.id t) eqn:E; simpl.
    + exfalso. apply Z.eqb_eq in E. apply Hx. rewrite E. now apply in_map.
    + f_equal. now apply IH.
Qed.

(** X1.  Create, then list: after a successful create by a user, the list
    of that user is the list as it was with the new task at its end; the new
    task is not completed, carries the title and the description of the
    request and an id that no earlier task has; the list of any user with
    another id is as it was. *)
Theorem create_then_list (todo : TodoCreate.t) (u other : User.t)
    (db db' : Database) (row : Todo.t) :
  get_db (create_todo todo u) db = (Ok row, db') ->
  User.id other <> User.id u ->
  (exists before,
      get_db (get_todos u) db = (Ok before, db) /\
      get_db (get_todos u) db' = (Ok (before ++ [row])%list, db')) /\
  Todo.completed row = false /\
  Todo.title row = TodoCreate.title todo /\
  Todo.description row = TodoCreate.description todo /\
  (forall r, In r (todos db) -> Todo.id r <> Todo.id row) /\
  fst (get_db (get_todos other) db') = fst (get_db (get_todos other) db).
Proof.
  rewrite create_todo_run. intros [= <- <-] Hne.
  repeat split.
  - eexists. split; [apply get_todos_run|]. rewrite get_todos_run.
    cbn [todos]. rewrite filter_app. cbn [filter new_row Todo.owner_id].
    now rewrite Z.eqb_refl.
  - intros r Hr Heq. apply (next_id_fresh (map Todo.id (todos db))).
    cbn [new_row Todo.id] in Heq. rewrite <- Heq. now apply in_map.
  - rewrite !get_todos_run. cbn [fst todos]. rewrite filter_app.
    cbn [filter new_row Todo.owner_id].
    destruct (User.id u =? User.id other) eqn:E.
    + apply Z.eqb_eq in E. congruence.
    + now rewrite app_nil_r.
Qed.

Lemma create_then_list_witness :
  fst (get_db (get_todos bob)
         (snd (get_db (create_todo (TodoCreate.mk "Call" None) alice) demo_db))) =
  fst (get_db (get_todos bob) demo_db).
Proof.
  apply (create_then_list (TodoCreate.mk "Call" None) alice bob demo_db _
           (Todo.mk 3 "Call" None false 1)).
  - reflexivity.
  - simpl. lia.
Defined.

(** X2.  Create, then delete: deleting the task that a create has just
    answered, by the same user, succeeds and gives back the store as it was
    before the create. *)
Theorem create_then_delete (todo : TodoCreate.t) (u : User.t)
    (db db' : Database) (row : Todo.t) :
  get_db (create_todo todo u) db = (Ok row, db') ->
  get_db (delete_todo (Todo.id row) u) db' = (Ok (Message.mk "Todo deleted"), db).
Proof.
  rewrite create_todo_run. intros [= <- <-].
  assert (Hold : forall r, In r (todos db) ->
                 Todo.id r <> Todo.id (new_row todo u db)).
  { intros r Hr Heq. apply (next_id_fresh (map Todo.id (todos db))).
    cbn [new_row Todo.id] in Heq. rewrite <- Heq. now apply in_map. }
  rewrite delete_todo_run. cbn [todos users].
  rewrite (find_app_fresh _ (todos db) (new_row todo u db)).
  - rewrite filter_app. cbn [filter]. rewrite Z.eqb_refl. cbn [negb].
    rewrite app_nil_r, filter_all, database_eta; [reflexivity|].
    intros r Hr. apply negb_true_iff, Z.eqb_neq. now apply Hold.
  - intros r Hr. unfold owned_by. apply andb_false_iff. left.
    apply Z.eqb_neq. now apply Hold.
  - apply owned_by_true. split; reflexivity.
Qed.

Lemma create_then_delete_witness :
  get_db (delete_todo 3 alice)
    (snd (get_db (create_todo (TodoCreate.mk "Call" None) alice) demo_db)) =
  (Ok (Message.mk "Todo deleted"), demo_db).
Proof.
  apply (create_then_delete (TodoCreate.mk "Call" None) alice demo_db _
           (Todo.mk 3 "Call" None false 1)).
  reflexivity.
Defined.

(** X3.  Delete removes the target and nothing else: in a store with unique
    keys, deleting a task of the caller succeeds, leaves the users alone,
    and the tasks that remain are exactly the other tasks, one fewer than
    before, in a store that still has unique keys. *)
Theorem delete_removes_target (db : Database) (u : User.t) (t : Todo.t) :
  db_wf db -> In t (todos db) -> Todo.owner_id t = User.id u ->
  exists db',
    get_db (delete_todo (Todo.id t) u) db = (Ok (Message.mk "Todo deleted"), db') /\
    users db' = users db /\
    (forall r, In r (todos db') <-> In r (todos db) /\ r <> t) /\
    S (List.length (todos db')) = List.length (todos db) /\
    db_wf db'.
Proof.
  intros Hwf Hin Hown.
  rewrite delete_todo_run, (owned_lookup u t db Hwf Hin Hown).
  eexists. split; [reflexivity|]. cbn [users todos].
  split; [reflexivity|]. split; [|split].
  - intros r. rewrite filter_In, negb_true_iff. split.
    + intros [Hr Hne]. split; [exact Hr|]. intros ->.
      now rewrite Z.eqb_refl in Hne.
    + intros [Hr Hne]. split; [exact Hr|].
      destruct (Todo.id r =? Todo.id t) eqn:E; [|reflexivity].
      now elim Hne; apply (same_key_same_row db).
  - apply length_after_delete; [apply Hwf|exact Hin].
  - destruct Hwf as (H1 & H2 & H3). repeat split; cbn [users todos]; trivial.
    now apply filter_keeps_keys_unique.
Qed.

Lemma delete_removes_target_witness :
  exists db',
    get_db (delete_todo 1 alice) demo_db = (Ok (Message.mk "Todo deleted"), db') /\
    users db' = users demo_db /\
    (forall r, In r (todos db') <->
               In r (todos demo_db) /\ r <> Todo.mk 1 "Buy milk" None false 1) /\
    S (List.length (todos db')) = List.length (todos demo_db) /\
    db_wf db'.
Proof.
  apply (delete_removes_target demo_db alice (Todo.mk 1 "Buy milk" None false 1)
           demo_db_wf).
  - simpl. auto.
  - reflexivity.
Defined.

(** X4.  Update is idempotent: in a store with unique keys, sending the
    update that has just succeeded once more succeeds with the same task and
    leaves the store as the first one left it. *)
Theorem update_idempotent (todo_id : Z) (todo : TodoUpdate.t) (u : User.t)
    (db db1 : Database) (r1 : Todo.t) :
  db_wf db ->
  get_db (update_todo todo_id todo u) db = (Ok r1, db1) ->
  get_db (update_todo todo_id todo u) db1 = (Ok r1, db1).
Proof.
  intros Hwf H1.
  pose proof (update_todo_wf todo_id todo u db Hwf) as Hwf1.
  rewrite H1 in Hwf1. cbn [snd] in Hwf1.
  apply update_todo_replaced in H1 as (t & Hin & Hid & Hown & Hr & ->).
  assert (Hid1 : Todo.id r1 = todo_id) by (now rewrite Hr, apply_update_id).
  assert (Hown1 : Todo.owner_id r1 = User.id u)
    by (now rewrite Hr, apply_update_owner).
  assert (Hin1 : In r1 (replaced r1 (todos db))).
  { apply (In_replaced r1 t); [exact Hin|congruence]. }
  pose proof (owned_lookup u r1 _ Hwf1 Hin1 Hown1) as Hfind.
  rewrite update_todo_run, <- Hid1, Hfind. cbn [todos users].
  replace (apply_update todo r1) with r1
    by (now rewrite Hr, apply_update_twice).
  fold (replaced r1 (replaced r1 (todos db))). now rewrite replaced_twice.
Qed.

Lemma update_idempotent_witness :
  get_db (update_todo 2 (TodoUpdate.mk (Some "Send report") None (Some true)) bob)
    (snd (get_db (update_todo 2 (TodoUpdate.mk (Some "Send report") None (Some true))
                    bob) demo_db)) =
  (Ok (Todo.mk 2 "Send report" (Some "draft") true 2),
   snd (get_db (update_todo 2 (TodoUpdate.mk (Some "Send report") None (Some true))
                  bob) demo_db)).
Proof.
  apply (update_idempotent 2 (TodoUpdate.mk (Some "Send report") None (Some true))
           bob demo_db _ _ demo_db_wf).
  reflexivity.
Defined.

(** X5.  An update that changes nothing is a no-op: in a store with unique
    keys, an update of a task of the caller whose fields are all absent, or
    all equal to what the task holds, answers the task as it is and leaves
    the store as it was. *)
Theorem unchanged_update_is_noop (db : Database) (u : User.t) (t : Todo.t)
    (todo : TodoUpdate.t) :
  db_wf db -> In t (todos db) -> Todo.owner_id t = User.id u ->
  apply_update todo t = t ->
  get_db (update_todo (Todo.id t) todo u) db = (Ok t, db) /\
  get_db (update_todo (Todo.id t) (TodoUpdate.mk None None None) u) db = (Ok t, db).
Proof.
  intros Hwf Hin Hown Hsame.
  assert (Hmap : map (fun r => if Todo.id r =? Todo.id t then t else r) (todos db) =
                 todos db).
  { apply map_fixed. intros r Hr.
    destruct (Todo.id r =? Todo.id t) eqn:E; [|reflexivity].
    symmetry. now apply (same_key_same_row db). }
  rewrite !update_todo_run, (owned_lookup u t db Hwf Hin Hown), Hsame.
  change (apply_update (TodoUpdate.mk None None None) t) with t.
  now rewrite Hmap, database_eta.
Qed.

Lemma unchanged_update_is_noop_witness :
  get_db (update_todo 2 (TodoUpdate.mk None (Some "draft") (Some false)) bob) demo_db =
    (Ok (Todo.mk 2 "Write report" (Some "draft") false 2), demo_db).
Proof.
  apply (unchanged_update_is_noop demo_db bob
           (Todo.mk 2 "Write report" (Some "draft") false 2)
           (TodoUpdate.mk None (Some "draft") (Some false)) demo_db_wf).
  - simpl. auto.
  - reflexivity.
  - reflexivity.
Defined.

(** X6.  A user's list is beyond the reach of the others: in a store with
    unique keys, whatever another user creates, updates or deletes,
    successfully or not, the list of a user with a different id is the same
    after as before. *)
Theorem other_lists_unchanged (db : Database) (A B : User.t) :
  db_wf db -> User.id A <> User.id B ->
  (forall todo,
      fst (get_db (get_todos A) (snd (get_db (create_todo todo B) db))) =
      fst (get_db (get_todos A) db)) /\
  (forall todo_id todo,
      fst (get_db (get_todos A) (snd (get_db (update_todo todo_id todo B) db))) =
      fst (get_db (get_todos A) db)) /\
  (forall todo_id,
      fst (get_db (get_todos A) (snd (get_db (delete_todo todo_id B) db))) =
      fst (get_db (get_todos A) db)).
Proof.
  intros Hwf Hne. split; [|split].
  - intros todo. rewrite create_todo_run, !get_todos_run. cbn [fst snd todos].
    rewrite filter_app. cbn [filter new_row Todo.owner_id].
    destruct (User.id B =? User.id A) eqn:E.
    + apply Z.eqb_eq in E. congruence.
    + now rewrite app_nil_r.
  - intros todo_id todo. rewrite update_todo_run, !get_todos_run.
    destruct (find (owned_by todo_id B) (todos db)) as [t|] eqn:E; [|reflexivity].
    apply find_some in E as [Hin Hp]. apply owned_by_true in Hp as [_ Hown].
    cbn [fst snd todos]. f_equal.
    rewrite filter_of_map.
    + apply map_fixed. intros r Hr. apply filter_In in Hr as [Hr HA].
      destruct (Todo.id r =? Todo.id t) eqn:Ek; [|reflexivity].
      apply (same_key_same_row db t r Hwf Hin Hr) in Ek. subst r.
      apply Z.eqb_eq in HA. congruence.
    + intros r Hr. destruct (Todo.id r =? Todo.id t) eqn:Ek; [|reflexivity].
      apply (same_key_same_row db t r Hwf Hin Hr) in Ek. subst r.
      now rewrite apply_update_owner.
  - intros todo_id. rewrite delete_todo_run, !get_todos_run.
    destruct (find (owned_by todo_id B) (todos db)) as [t|] eqn:E; [|reflexivity].
    apply find_some in E as [Hin Hp]. apply owned_by_true in Hp as [_ Hown].
    cbn [fst snd todos]. f_equal. apply filter_of_filter.
    intros r Hr HA. apply negb_true_iff.
    destruct (Todo.id r =? Todo.id t) eqn:Ek; [|reflexivity].
    apply (same_key_same_row db t r Hwf Hin Hr) in Ek. subst r.
    apply Z.eqb_eq in HA. congruence.
Qed.

Lemma other_lists_unchanged_witness :
  fst (get_db (get_todos alice) (snd (get_db (delete_todo 2 bob) demo_db))) =
  fst (get_db (get_todos alice) demo_db).
Proof.
  apply (other_lists_unchanged demo_db alice bob demo_db_wf).
  simpl. lia.
Defined.

(** X7.  Update neither creates, deletes nor moves a task: in a store with
    unique keys, after a successful update the users are as before, the
    tasks carry the same ids and the same owners in the same order, and the
    list of the caller is its old list with the answered task in the place
    of the task of that id. *)
Theorem update_keeps_structure (todo_id : Z) (todo : TodoUpdate.t) (u : User.t)
    (db db' : Database) (r : Todo.t) :
  db_wf db ->
  get_db (update_todo todo_id todo u) db = (Ok r, db') ->
  users db' = users db /\
  map Todo.id (todos db') = map Todo.id (todos db) /\
  map Todo.owner_id (todos db') = map Todo.owner_id (todos db) /\
  exists before,
    get_db (get_todos u) db = (Ok before, db) /\
    get_db (get_todos u) db' = (Ok (replaced r before), db').
Proof.
  intros Hwf H.
  apply update_todo_replaced in H as (t & Hin & Hid & Hown & Hr & ->).
  assert (Hkey : Todo.id r = Todo.id t) by (now rewrite Hr, apply_update_id).
  assert (Howner : Todo.owner_id r = Todo.owner_id t)
    by (now rewrite Hr, apply_update_owner).
  cbn [users todos]. split; [reflexivity|]. split; [|split].
  - apply map_id_replaced.
  - unfold replaced. rewrite map_map. apply map_ext_in. intros x Hx.
    destruct (Todo.id x =? Todo.id r) eqn:E; [|reflexivity].
    rewrite Hkey in E. apply (same_key_same_row db t x Hwf Hin Hx) in E.
    now subst x.
  - eexists. split; [apply get_todos_run|]. rewrite get_todos_run.
    cbn [todos]. f_equal. f_equal. unfold replaced. apply filter_of_map.
    intros x Hx. destruct (Todo.id x =? Todo.id r) eqn:E; [|reflexivity].
    rewrite Hkey in E. apply (same_key_same_row db t x Hwf Hin Hx) in E.
    subst x. now rewrite Howner.
Qed.

Lemma update_keeps_structure_witness :
  map Todo.id
    (todos (snd (get_db (update_todo 1 (TodoUpdate.mk (Some "Buy tea") None None)
                           alice) demo_db))) =
  map Todo.id (todos demo_db).
Proof.
  apply (update_keeps_structure 1 (TodoUpdate.mk (Some "Buy tea") None None) alice
           demo_db _ (Todo.mk 1 "Buy tea" None false 1) demo_db_wf).
  reflexivity.
Defined.

(** X8.  Login reads and does not write, and fails in one way only: the
    store after a login is the store before it; every failure is the 401
    error "Invalid credentials", the same for an unknown username and for a
    password that does not verify; every success answers a token of type
    "bearer" issued for a user of the store who carries the given username
    and whose stored hash verifies the given password. *)
Theorem login_outcomes (verify_password : string -> string -> bool)
    (jwt_encode : Claims.t -> string) (ACCESS_TOKEN_EXPIRE : Z)
    (now : Z) (form_data : LoginForm.t) (db : Database) :
  snd (get_db (login verify_password jwt_encode ACCESS_TOKEN_EXPIRE now form_data) db)
    = db /\
  (forall e,
      fst (get_db (login verify_password jwt_encode ACCESS_TOKEN_EXPIRE now form_data)
             db) = Raise e ->
      e = HTTPException 401 "Invalid credentials") /\
  (forall token,
      fst (get_db (login verify_password jwt_encode ACCESS_TOKEN_EXPIRE now form_data)
             db) = Ok token ->
      Token.token_type token = "bearer" /\
      exists user,
        In user (users db) /\
        User.username user = LoginForm.username form_data /\
        verify_password (LoginForm.password form_data) (User.hashed_password user)
          = true /\
        Token.access_token token =
          create_access_token jwt_encode ACCESS_TOKEN_EXPIRE now
            (LoginForm.username form_data)).
Proof.
  rewrite login_run. cbn [fst snd]. split; [reflexivity|].
  destruct (find _ (users db)) as [user|] eqn:E.
  - apply find_some in E as [Hin Hname]. apply String.eqb_eq in Hname.
    destruct (verify_password _ _) eqn:V; split; try discriminate.
    + intros token [= <-]. split; [reflexivity|]. exists user.
      cbn [Token.access_token]. rewrite Hname. auto.
    + now intros e [= <-].
  - split; [now intros e [= <-]|discriminate].
Qed.

Lemma login_outcomes_witness :
  snd (get_db (login demo_verify demo_encode 1800 50 (LoginForm.mk "alice" "nope"))
         demo_db) = demo_db /\
  (forall e,
      fst (get_db (login demo_verify demo_encode 1800 50
                     (LoginForm.mk "alice" "nope")) demo_db) = Raise e ->
      e = HTTPException 401 "Invalid credentials").
Proof.
  destruct (login_outcomes demo_verify demo_encode 1800 50
              (LoginForm.mk "alice" "nope") demo_db) as (Hstore & Hfail & _).
  exact (conj Hstore Hfail).
Defined.

(** What a successful authentication tells about the user it answers. *)
Lemma authenticate_ok (jwt_decode : string -> option Claims.t) (now : Z)
    (token : string) (db : Database) (u : User.t) :
  authenticate jwt_decode now token db = Ok u ->
  In u (users db) /\ decode_token jwt_decode now token = Ok (User.username u).
Proof.
  rewrite authenticate_run.
  destruct (decode_token jwt_decode now token) as [name|e]; [|discriminate].
  destruct (find _ (users db)) as [x|] eqn:E; [|discriminate].
  intros [= ->]. apply find_some in E as [Hin Hname].
  apply String.eqb_eq in Hname. now rewrite Hname.
Qed.

(** X9.  The outcomes of a registration request: it fails either at the
    boundary, when the body does not fit [UserCreate], or with the 400 error
    "Username already exists", when a user of the store carries the
    username; a failure leaves the store as it was, and the uniqueness
    constraint of the store is never hit.  It succeeds only for a username
    that no user carries, and then adds one user row and nothing else. *)
Theorem post_register_outcomes (hash_password : string -> string -> string)
    (salt : string) (b : body) (db : Database) :
  (forall e,
      fst (post_register hash_password salt b db) = Raise e ->
      snd (post_register hash_password salt b db) = db /\
      (e = RequestValidationError /\ parse_UserCreate b = None \/
       e = HTTPException 400 "Username already exists" /\
       exists user x,
         parse_UserCreate b = Some user /\ In x (users db) /\
         User.username x = UserCreate.username user)) /\
  (forall m,
      fst (post_register hash_password salt b db) = Ok m ->
      exists user,
        parse_UserCreate b = Some user /\
        (forall x, In x (users db) -> User.username x <> UserCreate.username user) /\
        users (snd (post_register hash_password salt b db)) =
          (users db ++
           [User.mk (next_id (map User.id (users db))) (UserCreate.username user)
              (hash_password salt (UserCreate.password user))])%list /\
        todos (snd (post_register hash_password salt b db)) = todos db).
Proof.
  rewrite post_register_run.
  destruct (parse_UserCreate b) as [user|].
  - rewrite register_run.
    destruct (find _ (users db)) as [x|] eqn:E; cbn [fst snd]; split;
      try discriminate.
    + intros e [= <-]. split; [reflexivity|]. right. split; [reflexivity|].
      apply find_some in E as [Hin Hname]. apply String.eqb_eq in Hname.
      now exists user, x.
    + intros m _. exists user. repeat split.
      intros x Hx. apply String.eqb_neq. exact (find_none _ _ E x Hx).
  - cbn [fst snd]. split; [|discriminate].
    intros e [= <-]. split; [reflexivity|]. now left.
Qed.

Lemma post_register_outcomes_witness :
  snd (post_register demo_hash "s" [("username", JStr "alice")] demo_db) = demo_db /\
  snd (post_register demo_hash "s"
         [("username", JStr "alice"); ("password", JStr "x")] demo_db) = demo_db.
Proof.
  split.
  - apply (post_register_outcomes demo_hash "s" [("username", JStr "alice")] demo_db)
      with (e := RequestValidationError).
    reflexivity.
  - apply (post_register_outcomes demo_hash "s"
             [("username", JStr "alice"); ("password", JStr "x")] demo_db)
      with (e := HTTPException 400 "Username already exists").
    reflexivity.
Defined.

Section Reachable.

Variable hash_password : string -> string -> string.
Variable verify_password : string -> string -> bool.
Variable jwt_encode : Claims.t -> string.
Variable jwt_decode : string -> option Claims.t.
Variable ACCESS_TOKEN_EXPIRE : Z.
Variable lax_bool : json -> option bool.

Lemma serve_fk (req : request) (db : Database) :
  db_fk db ->
  db_fk (serve hash_password verify_password jwt_encode jwt_decode
           ACCESS_TOKEN_EXPIRE lax_bool req db).
Proof.
  intros Hfk. destruct req; cbn [serve].
  - rewrite post_register_run.
    destruct (parse_UserCreate b) as [user|]; [|exact Hfk].
    rewrite register_run. destruct (find _ (users db)) as [x|]; [exact Hfk|].
    intros t Ht. destruct (Hfk t Ht) as (u & Hu & Hid).
    exists u. split; [|exact Hid]. cbn [snd users]. apply in_or_app. now left.
  - unfold post_login. rewrite login_run. exact Hfk.
  - rewrite post_todos_run.
    destruct (authenticate jwt_decode now token db) as [u|e] eqn:Ea; [|exact Hfk].
    destruct (parse_TodoCreate b) as [todo|]; [|exact Hfk].
    apply authenticate_ok in Ea as [Hu _].
    intros t Ht. cbn [snd todos users] in *.
    apply in_app_or in Ht as [Ht|[<-|[]]]; [now apply Hfk|].
    now exists u.
  - rewrite get_todos_route_run.
    destruct (authenticate jwt_decode now token db); exact Hfk.
  - rewrite put_todos_run.
    destruct (authenticate jwt_decode now token db) as [u|e]; [|exact Hfk].
    destruct (parse_TodoUpdate lax_bool b) as [todo|]; [|exact Hfk].
    rewrite update_todo_run.
    destruct (find (owned_by todo_id u) (todos db)) as [t0|] eqn:E; [|exact Hfk].
    apply find_some in E as [Hin0 _].
    intros t Ht. cbn [snd todos users] in *.
    apply in_map_iff in Ht as (x & Hx & Hin).
    destruct (Todo.id x =? Todo.id t0).
    + subst t. rewrite apply_update_owner. now apply Hfk.
    + subst t. now apply Hfk.
  - rewrite delete_todos_run.
    destruct (authenticate jwt_decode now token db) as [u|e]; [|exact Hfk].
    rewrite delete_todo_run.
    destruct (find (owned_by todo_id u) (todos db)) as [t0|]; [|exact Hfk].
    intros t Ht. cbn [snd todos users] in *.
    apply filter_In in Ht as [Ht _]. now apply Hfk.
Qed.

(** X10.  The schema constraints are invariants of the service: in every
    store reached from empty tables by any sequence of requests, user ids,
    usernames and task ids are unique, and every task is owned by a user of
    the store. *)
Theorem reachable_schema (db : Database) :
  reachable hash_password verify_password jwt_encode jwt_decode
    ACCESS_TOKEN_EXPIRE lax_bool db ->
  db_wf db /\ db_fk db.
Proof.
  intros H. split.
  - now apply (reachable_wf hash_password verify_password jwt_encode jwt_decode
                 ACCESS_TOKEN_EXPIRE lax_bool).
  - induction H as [|req db _ IH].
    + intros t [].
    + now apply serve_fk.
Qed.

End Reachable.

Lemma reachable_schema_witness :
  db_wf (serve demo_hash demo_verify demo_encode demo_decode 1800 demo_lax_bool
           (PostTodos 100 "v1.zed" [("title", JStr "Plan")])
           (serve demo_hash demo_verify demo_encode demo_decode 1800 demo_lax_bool
              (PostRegister "s" [("username", JStr "zed"); ("password", JStr "pw")])
              empty_db)) /\
  db_fk (serve demo_hash demo_verify demo_encode demo_decode 1800 demo_lax_bool
           (PostTodos 100 "v1.zed" [("title", JStr "Plan")])
           (serve demo_hash demo_verify demo_encode demo_decode 1800 demo_lax_bool
              (PostRegister "s" [("username", JStr "zed"); ("password", JStr "pw")])
              empty_db)).
Proof.
  apply (reachable_schema demo_hash demo_verify demo_encode demo_decode 1800
           demo_lax_bool).
  apply reachable_serve, reachable_serve, reachable_empty.
Defined.

(** X11.  What the guard answers: when [get_current_user] succeeds, the
    user it answers is a row of the store whose username is the subject the
    token decoded to, and in a store with unique usernames it is the only
    such row; the guard leaves the session as it found it, whatever it
    answers. *)
Theorem guard_answers_subject (jwt_decode : string -> option Claims.t) (now : Z)
    (token : string) (db : Database) (u : User.t) :
  authenticate jwt_decode now token db = Ok u ->
  In u (users db) /\
  decode_token jwt_decode now token = Ok (User.username u) /\
  (db_wf db ->
   forall x, In x (users db) -> User.username x = User.username u -> x = u) /\
  (forall s, snd (get_current_user jwt_decode now token s) = s).
Proof.
  intros H. apply authenticate_ok in H as [Hin Hdec].
  repeat split; trivial.
  - intros (_ & Hnames & _) x Hx Heq.
    now apply (unique_key_inj User.username (users db)).
  - intros s. now rewrite get_current_user_run.
Qed.

Lemma guard_answers_subject_witness :
  In bob (users demo_db) /\
  decode_token demo_decode 100 "v1.bob" = Ok (User.username bob).
Proof.
  destruct (guard_answers_subject demo_decode 100 "v1.bob" demo_db bob)
    as (Hin & Hdec & _).
  - reflexivity.
  - exact (conj Hin Hdec).
Defined.

Lemma filter_none {A : Type} (p : A -> bool) (l : list A) :
  (forall x, In x l -> p x = false) -> filter p l = [].
Proof.
  induction l as [|x l IH]; simpl; intros H; [reflexivity|].
  rewrite (H x (or_introl eq_refl)). apply IH. intros y Hy. apply H. now right.
Qed.

(** X12.  A new user starts with an empty list: in a store where every task
    is owned by a user of the store, a successful registration adds a user
    who was not there before, who carries the registered username, and
    whose list of tasks is empty. *)
Theorem new_user_has_no_tasks (hash_password : string -> string -> string)
    (salt : string) (user : UserCreate.t) (db db' : Database) (m : Message.t) :
  db_fk db ->
  get_db (register hash_password salt user) db = (Ok m, db') ->
  exists u,
    In u (users db') /\ ~ In u (users db) /\
    User.username u = UserCreate.username user /\
    get_db (get_todos u) db' = (Ok [], db').
Proof.
  intros Hfk H. apply register_ok in H as (_ & _ & ->).
  exists (new_user (UserCreate.username user)
            (hash_password salt (UserCreate.password user)) db).
  cbn [users]. split; [|split; [|split]].
  - apply in_or_app. right. now left.
  - intros Hin. apply (next_id_fresh (map User.id (users db))).
    now apply (in_map User.id) in Hin.
  - reflexivity.
  - rewrite get_todos_run. cbn [todos]. f_equal. f_equal.
    apply filter_none. intros t Ht. apply Z.eqb_neq. intros Heq.
    destruct (Hfk t Ht) as (x & Hx & Hid).
    apply (next_id_fresh (map User.id (users db))).
    cbn [new_user User.id] in Heq. rewrite <- Heq, <- Hid. now apply in_map.
Qed.

Lemma demo_db_fk : db_fk demo_db.
Proof.
  intros t [<-|[<-|[]]]; [exists alice|exists bob]; simpl; auto.
Qed.

Lemma new_user_has_no_tasks_witness :
  exists u,
    In u (users (snd (get_db (register demo_hash "s" (UserCreate.mk "carol" "pw"))
                        demo_db))) /\
    ~ In u (users demo_db) /\
    User.username u = "carol" /\
    get_db (get_todos u)
      (snd (get_db (register demo_hash "s" (UserCreate.mk "carol" "pw")) demo_db)) =
    (Ok [], snd (get_db (register demo_hash "s" (UserCreate.mk "carol" "pw")) demo_db)).
Proof.
  apply (new_user_has_no_tasks demo_hash "s" (UserCreate.mk "carol" "pw") demo_db _
           (Message.mk "User created") demo_db_fk).
  reflexivity.
Defined.



(** X14.  An explicit null description on create is an absent one: a create
    request whose body carries [description: null] is answered exactly like
    the request without that key, and the task it creates has no
    description. *)
Theorem create_null_description (jwt_decode : string -> option Claims.t) (now : Z)
    (token : string) (b : body) (db : Database) :
  field "description" b = Some JNull ->
  post_todos jwt_decode now token b db =
    post_todos jwt_decode now token (without "description" b) db /\
  (forall r db',
      post_todos jwt_decode now token b db = (Ok r, db') ->
      TodoResponse.description r = None).
Proof.
  intros Hnull.
  assert (Hparse : parse_TodoCreate (without "description" b) = parse_TodoCreate b).
  { unfold parse_TodoCreate.
    rewrite field_without_same, Hnull, field_without_other by discriminate.
    reflexivity. }
  split.
  - now rewrite !post_todos_run, Hparse.
  - intros r db'. rewrite post_todos_run.
    destruct (authenticate jwt_decode now token db) as [u|e];
      [|intros ?; discriminate].
    unfold parse_TodoCreate. rewrite Hnull.
    destruct (validate_str (field "title" b)); [|intros ?; discriminate].
    now intros [= <- _].
Qed.

Lemma create_null_description_witness :
  post_todos demo_decode 100 "v1.alice"
    [("title", JStr "Call"); ("description", JNull)] demo_db =
  post_todos demo_decode 100 "v1.alice"
    (without "description" [("title", JStr "Call"); ("description", JNull)]) demo_db.
Proof.
  apply (create_null_description demo_decode 100 "v1.alice"
           [("title", JStr "Call"); ("description", JNull)] demo_db).
  reflexivity.
Defined.
